(** * Pool-Pi: serial framer, frame validation and command handshake

    A shallow embedding of [src/pool-pi.py]: the byte framer
    ([readSerialBus]), the frame validator and dispatcher ([parseBuffer]),
    the confirmation and retry logic ([checkCommand]), the command intake
    ([getCommand]) and the body of the [while True] loop of [main].

    Python objects that the functions mutate in place are passed in and
    returned explicitly.  Classes, tables and helpers that pool-pi.py takes
    from the modules it imports ([commands], [model], [parsing], [web]) are
    either fields of the class [Collaborators] below, or are written out
    from the specification and marked as such. *)

From Stdlib Require Import ZArith List Bool String Ascii Lia.
From Stdlib Require Import Strings.Byte.
Import ListNotations.

Set Implicit Arguments.

(** ** Byte strings *)

(** A Python [bytes] or [bytearray] value. *)
Definition bytes := list byte.

(** [a == b] on byte strings. *)
Fixpoint bytes_eqb (a b : bytes) : bool :=
  match a, b with
  | [], [] => true
  | x :: a', y :: b' => Byte.eqb x y && bytes_eqb a' b'
  | _, _ => false
  end.

(** The integer a [bytearray] holds at one index. *)
Definition int_of_byte (b : byte) : Z := Z.of_N (Byte.to_N b).

(** [int.from_bytes(b, "big")]. *)
Definition int_from_bytes (b : bytes) : Z :=
  fold_left (fun acc x => (acc * 256 + int_of_byte x)%Z) b 0%Z.

(** [b[-k]] for [k >= 1]; [None] stands for Python's [IndexError]. *)
Definition index_from_end (b : bytes) (k : nat) : option Z :=
  match k with
  | O => None
  | S k' => option_map int_of_byte (nth_error (rev b) k')
  end.

(** [b[i:j]] for non-negative [i] and [j]. *)
Definition slice (i j : nat) (b : bytes) : bytes := firstn (j - i) (skipn i b).

(** [b[i:-j]] for non-negative [i] and positive [j]. *)
Definition slice_to_end (i j : nat) (b : bytes) : bytes :=
  firstn (List.length b - j - i) (skipn i b).

Fixpoint is_prefix (p b : bytes) : bool :=
  match p, b with
  | [], _ => true
  | x :: p', y :: b' => Byte.eqb x y && is_prefix p' b'
  | _ :: _, [] => false
  end.

(** [needle in hay] on byte strings: [needle] occurs as a contiguous run. *)
Fixpoint bytes_in (needle hay : bytes) : bool :=
  is_prefix needle hay
  || match hay with
     | [] => false
     | _ :: t => bytes_in needle t
     end.

(** The delimiter bytes.  They are imported; their values are
    fixed by the literals of [parseBuffer] (lines 72-80: [b"\x10\x02"] is
    logged as DLE STX, [b"\x10\x03"] as DLE ETX).  Each is a byte string of
    length one, as [buffer += DLE] and [int.from_bytes(DLE, "big")] need. *)
Definition DLE : bytes := [x10].
Definition STX : bytes := [x02].
Definition ETX : bytes := [x03].

(** [frame.replace(b"\x10\x00", b"\x10")] (line 72): occurrences are
    replaced from left to right and do not overlap. *)
Fixpoint destuff (frame : bytes) : bytes :=
  match frame with
  | [] => []
  | b :: t =>
      if Byte.eqb b x10 then
        match t with
        | c :: t' => if Byte.eqb c x00 then x10 :: destuff t' else b :: destuff t
        | [] => [b]
        end
      else b :: destuff t
  end.

(** Modelled from the spec: the transmitter-side stuffing transform is not
    in pool-pi.py; section 6 gives it as "literal 0x10 followed by 0x00
    standing for a payload byte of 0x10". *)
Fixpoint stuff (payload : bytes) : bytes :=
  match payload with
  | [] => []
  | b :: t => if Byte.eqb b x10 then x10 :: x00 :: stuff t else b :: stuff t
  end.

(** ** The three objects shared by the loop *)

Module SerialHandler.

(** Modelled from the spec: [SerialHandler] is imported, not defined in
    pool-pi.py.  The fields are the attributes pool-pi.py reads and writes,
    together with the two ends of the bus transport of section 6: [pending]
    holds the bytes received and not yet read, [sent] the frames written so
    far. *)
Record t := mk {
  pending : bytes;
  buffer : bytes;
  buffer_full : bool;
  looking_for_start : bool;
  ready_to_send : bool;
  sent : list bytes
}.

Definition set_pending (v : bytes) (s : t) : t :=
  mk v (buffer s) (buffer_full s) (looking_for_start s) (ready_to_send s) (sent s).
Definition set_buffer (v : bytes) (s : t) : t :=
  mk (pending s) v (buffer_full s) (looking_for_start s) (ready_to_send s) (sent s).
Definition set_buffer_full (v : bool) (s : t) : t :=
  mk (pending s) (buffer s) v (looking_for_start s) (ready_to_send s) (sent s).
Definition set_looking_for_start (v : bool) (s : t) : t :=
  mk (pending s) (buffer s) (buffer_full s) v (ready_to_send s) (sent s).
Definition set_ready_to_send (v : bool) (s : t) : t :=
  mk (pending s) (buffer s) (buffer_full s) (looking_for_start s) v (sent s).
Definition set_sent (v : list bytes) (s : t) : t :=
  mk (pending s) (buffer s) (buffer_full s) (looking_for_start s) (ready_to_send s) v.

(** Modelled from the spec: [SerialHandler.in_waiting] is imported, not
    defined in pool-pi.py; section 6 has it as [hasData], the number of received
    bytes not yet read. *)
Definition in_waiting (s : t) : nat := List.length (pending s).

(** Modelled from the spec: [SerialHandler.read] is imported, not
    defined in pool-pi.py; section 6 has it as [readByte] and section 5 as a read that
    never waits: it returns the next byte, or the empty byte string when
    none is there. *)
Definition read (s : t) : bytes * t :=
  (firstn 1 (pending s), set_pending (skipn 1 (pending s)) s).

(** Modelled from the spec: [SerialHandler.send] is imported, not
    defined in pool-pi.py; section 6 has it as [writeFrame], which puts one frame on
    the bus. *)
Definition send (frame : bytes) (s : t) : t := set_sent (sent s ++ [frame]) s.

(** Modelled from the spec: [SerialHandler.reset] is imported, not
    defined in pool-pi.py; section 4.2 has it as "discard buffer, resume seeking
    start", and the comment of line 127 as "clear buffer and reset flags". *)
Definition reset (s : t) : t :=
  set_buffer_full false (set_looking_for_start true (set_buffer [] s)).

(** Bytes arriving on the wire between two reads. *)
Definition receive (bs : bytes) (s : t) : t := set_pending (pending s ++ bs) s.

End SerialHandler.

Module PoolModel.

(** Modelled from the spec: [PoolModel] is imported, not defined in
    pool-pi.py; section 6 gives [getParameterState], the freshness [timestamp] and the dirty flag;
    [version] and [sending_message] are the other attributes pool-pi.py
    uses.  Time stamps are clock readings; only their order is used. *)
Record t := mk {
  getParameterState : string -> string;
  timestamp : Z;
  version : Z;
  sending_message : bool;
  flag_data_changed : bool
}.

Definition set_sending_message (v : bool) (m : t) : t :=
  mk (getParameterState m) (timestamp m) (version m) v (flag_data_changed m).
Definition set_flag_data_changed (v : bool) (m : t) : t :=
  mk (getParameterState m) (timestamp m) (version m) (sending_message m) v.

End PoolModel.

Module CommandHandler.

(** Modelled from the spec: [CommandHandler] is imported, not defined in
    pool-pi.py.  The fields are the attributes pool-pi.py reads and writes, and
    [attempts_remaining], the attempt budget of section 3
    ("attemptsRemaining: count"). *)
Record t := mk {
  parameter : string;
  target_state : string;
  confirm : bool;
  sending_message : bool;
  keep_alive_count : Z;
  last_model_timestamp_seen : Z;
  full_command : bytes;
  attempts_remaining : nat
}.

Definition set_sending_message (v : bool) (c : t) : t :=
  mk (parameter c) (target_state c) (confirm c) v (keep_alive_count c)
     (last_model_timestamp_seen c) (full_command c) (attempts_remaining c).
Definition set_keep_alive_count (v : Z) (c : t) : t :=
  mk (parameter c) (target_state c) (confirm c) (sending_message c) v
     (last_model_timestamp_seen c) (full_command c) (attempts_remaining c).
Definition set_last_model_timestamp_seen (v : Z) (c : t) : t :=
  mk (parameter c) (target_state c) (confirm c) (sending_message c)
     (keep_alive_count c) v (full_command c) (attempts_remaining c).
Definition set_attempts_remaining (v : nat) (c : t) : t :=
  mk (parameter c) (target_state c) (confirm c) (sending_message c)
     (keep_alive_count c) (last_model_timestamp_seen c) (full_command c) v.

(** Modelled from the spec: [CommandHandler.sendAttemptsRemain] is
    imported, not defined in pool-pi.py; section 4.4: "if the new state does not match and
    attempts remain, decrement the attempt budget", and "if attempts are
    exhausted without a match, the command is dropped silently back to
    Idle". *)
Definition sendAttemptsRemain (c : t) : bool * t :=
  match attempts_remaining c with
  | O => (false, set_sending_message false c)
  | S n => (true, set_attempts_remaining n c)
  end.

End CommandHandler.

(** ** The framer *)

Import SerialHandler.

(** [readSerialBus] (lines 14-60).  [None] is the [IndexError] that
    [buffer[-2]] raises on a buffer of fewer than two bytes. *)
Definition readSerialBus (serialHandler : SerialHandler.t) : option SerialHandler.t :=
  if (in_waiting serialHandler =? 0)%nat then Some serialHandler
  else if buffer_full serialHandler then Some serialHandler
  else
    let '(serChar, sh1) := read serialHandler in
    if looking_for_start sh1 then
      if bytes_eqb serChar DLE then
        let '(serChar2, sh2) := read sh1 in
        if bytes_eqb serChar2 STX then
          Some (set_looking_for_start false (set_buffer (([] ++ DLE) ++ STX) sh2))
        else Some sh2
      else Some sh1
    else
      let sh2 := set_buffer (buffer sh1 ++ serChar) sh1 in
      if bytes_eqb serChar ETX then
        match index_from_end (buffer sh2) 2 with
        | None => None
        | Some b =>
            if (b =? int_from_bytes DLE)%Z then
              Some (set_looking_for_start true (set_buffer_full true sh2))
            else Some sh2
        end
      else Some sh2.

(** What holds of the buffer on every pass of the loop: while a frame is
    being accumulated the buffer starts with DLE STX, and a buffer marked
    full is DLE STX, some bytes, DLE ETX. *)
Definition framed (sh : SerialHandler.t) : Prop :=
  (looking_for_start sh = false -> exists tl, buffer sh = x10 :: x02 :: tl)
  /\ (buffer_full sh = true ->
      exists mid, buffer sh = [x10; x02] ++ mid ++ [x10; x03]).

(** ** What pool-pi.py imports and does not define *)

(** The names pool-pi.py takes from its imports and from the Python
    library without fixing what they compute.  Every result below holds for
    every instance.  The two payload decoders and the checksum test are
    opaque here; the decoders may read the clock. *)
Class Collaborators := {
  confirmChecksum : bytes -> bool;
  parseDisplay : Z -> bytes -> PoolModel.t -> PoolModel.t;
  parseLEDs : Z -> bytes -> PoolModel.t -> PoolModel.t;
  FRAME_TYPE_KEEPALIVE : bytes;
  FRAME_TYPE_DISPLAY : bytes;
  FRAME_TYPE_LEDS : bytes;
  FRAME_TYPE_DISPLAY_SERVICE : bytes;
  FRAME_TYPE_SERVICE_MODE : bytes;
  (** the keys of the two command tables *)
  button_toggle : list string;
  buttons_menu : list string;
  (** the frame a command identifier is sent as *)
  command_frame : string -> bytes;
  (** the number of attempts a command is allowed *)
  MAX_SEND_ATTEMPTS : nat;
  (** Python's [int] on a string; [None] is [ValueError] *)
  py_int : string -> option Z;
  (** the text layer of [open(..., "r+")]: the bytes of the queue file to
      the text [f.readline()] works on, in the encoding of the locale;
      [None] is [UnicodeDecodeError] *)
  decode : string -> option string
}.

(** ** Text of the command queue *)

(** [f.readline()] on decoded text.  The file is opened in text mode with
    universal newlines: a line ends at a line feed, at a carriage return or
    at a carriage return followed by a line feed, and each of them is
    handed over as one line feed.  A last line without an end is returned
    as it is. *)
Fixpoint readline (s : string) : string :=
  match s with
  | EmptyString => EmptyString
  | String c rest =>
      if (Ascii.eqb c "010"%char || Ascii.eqb c "013"%char)%bool
      then String "010"%char EmptyString
      else String c (readline rest)
  end.

(** [line.split(",")]. *)
Fixpoint split_comma (s : string) : list string :=
  match s with
  | EmptyString => [EmptyString]
  | String c rest =>
      if Ascii.eqb c ","%char then EmptyString :: split_comma rest
      else
        match split_comma rest with
        | h :: t => String c h :: t
        | [] => [String c EmptyString]
        end
  end.

(** [x in table] on the keys of a table. *)
Definition key_in (x : string) (table : list string) : bool :=
  existsb (String.eqb x) table.

Section Core.

Context `{Collaborators}.

(** Modelled from the spec: [CommandHandler.initiateSend] is imported, not
    defined in pool-pi.py; section 3 has the handshake state "populated when a new
    command is accepted" with the target parameter, the target value and the
    attempt budget, and section 4.4 has the command in flight from then on.
    The heartbeat count and the low-water mark are left as they are. *)
Definition initiateSend (commandID commandState : string) (commandConfirm : bool)
    (c : CommandHandler.t) : CommandHandler.t :=
  CommandHandler.mk commandID commandState commandConfirm true
    (CommandHandler.keep_alive_count c)
    (CommandHandler.last_model_timestamp_seen c)
    (command_frame commandID) MAX_SEND_ATTEMPTS.

(** ** Validation (lines 70-93 of [parseBuffer]) *)

Inductive RejectReason := SpuriousDelimiter | ChecksumMismatch.

Inductive Validation :=
| Rejected (reason : RejectReason)
| ValidFrame (frameType data : bytes).

(** The straight-line head of [parseBuffer]: destuff, the two delimiter
    tests, the checksum test, and the split into type and data.  The three
    early returns of the source are the three [Rejected] results; the
    source tells them apart only by what it logs. *)
Definition validate (buffer : bytes) : Validation :=
  let frame := destuff buffer in
  if bytes_in [x10; x02] (slice_to_end 2 2 frame) then Rejected SpuriousDelimiter
  else if bytes_in [x10; x03] (slice_to_end 2 2 frame) then Rejected SpuriousDelimiter
  else if negb (confirmChecksum frame) then Rejected ChecksumMismatch
  else ValidFrame (slice 2 4 frame) (slice_to_end 4 4 frame).

(** ** [parseBuffer] (lines 63-128) *)

Definition parseBuffer (now : Z) (poolModel : PoolModel.t)
    (serialHandler : SerialHandler.t) (commandHandler : CommandHandler.t)
    : PoolModel.t * SerialHandler.t * CommandHandler.t :=
  if buffer_full serialHandler then
    match validate (buffer serialHandler) with
    | Rejected _ => (poolModel, reset serialHandler, commandHandler)
    | ValidFrame frameType data =>
        if bytes_eqb frameType FRAME_TYPE_KEEPALIVE then
          if ready_to_send serialHandler then
            if (CommandHandler.keep_alive_count commandHandler =? 1)%Z then
              let sh1 := send (CommandHandler.full_command commandHandler) serialHandler in
              let ch1 :=
                if negb (CommandHandler.confirm commandHandler)
                then CommandHandler.set_sending_message false commandHandler
                else commandHandler in
              let sh2 := set_ready_to_send false sh1 in
              (poolModel, reset sh2, ch1)
            else
              (poolModel, reset serialHandler,
               CommandHandler.set_keep_alive_count 1 commandHandler)
          else
            (poolModel, reset serialHandler,
             CommandHandler.set_keep_alive_count 0 commandHandler)
        else
          let ch1 := CommandHandler.set_keep_alive_count 0 commandHandler in
          let pm1 :=
            if bytes_eqb frameType FRAME_TYPE_DISPLAY then parseDisplay now data poolModel
            else if bytes_eqb frameType FRAME_TYPE_LEDS then parseLEDs now data poolModel
            else if bytes_eqb frameType FRAME_TYPE_DISPLAY_SERVICE
                 then parseDisplay now data poolModel
            else if bytes_eqb frameType FRAME_TYPE_SERVICE_MODE then poolModel
            else poolModel in
          (pm1, reset serialHandler, ch1)
    end
  else (poolModel, serialHandler, commandHandler).

(** ** [checkCommand] (lines 131-160); [now] is what [time.time()] returns *)

Definition checkCommand (now : Z) (poolModel : PoolModel.t)
    (serialHandler : SerialHandler.t) (commandHandler : CommandHandler.t)
    : PoolModel.t * SerialHandler.t * CommandHandler.t :=
  if negb (CommandHandler.sending_message commandHandler) then
    (poolModel, serialHandler, commandHandler)
  else if ready_to_send serialHandler then
    (poolModel, serialHandler, commandHandler)
  else if (PoolModel.timestamp poolModel
           >=? CommandHandler.last_model_timestamp_seen commandHandler)%Z then
    if String.eqb
         (PoolModel.getParameterState poolModel (CommandHandler.parameter commandHandler))
         (CommandHandler.target_state commandHandler)
    then
      (PoolModel.set_flag_data_changed true (PoolModel.set_sending_message false poolModel),
       serialHandler,
       CommandHandler.set_sending_message false commandHandler)
    else
      let '(remain, ch1) := CommandHandler.sendAttemptsRemain commandHandler in
      if remain then
        (poolModel, set_ready_to_send true serialHandler,
         CommandHandler.set_last_model_timestamp_seen now ch1)
      else (poolModel, serialHandler, ch1)
  else (poolModel, serialHandler, commandHandler).

(** ** [getCommand] (lines 163-263) *)

(** Lines 229-241: the state a toggle is sent to reach. *)
Definition desiredState (commandID currentState : string) : string :=
  if String.eqb commandID "service" then
    if String.eqb currentState "ON" then "BLINK"%string
    else if String.eqb currentState "BLINK" then "OFF"%string
    else "ON"%string
  else
    if String.eqb currentState "ON" then "OFF"%string
    else "ON"%string.

(** Lines 211-217: the one button that stands for three parameters. *)
Definition resolveCommandID (poolModel : PoolModel.t) (commandID : string) : string :=
  if String.eqb commandID "pool-spa-spillover" then
    if String.eqb (PoolModel.getParameterState poolModel "pool") "ON" then "pool"%string
    else if String.eqb (PoolModel.getParameterState poolModel "spa") "ON" then "spa"%string
    else "spillover"%string
  else commandID.

(** The queue file is [None] when it does not exist and [Some content]
    otherwise, [content] being its bytes; [f.truncate(0)] leaves [Some ""].
    The result is [None] when the call raises: [f.readline()] (line 176)
    stands before the [try] of line 177, so the [UnicodeDecodeError] of a
    file that cannot be decoded leaves [getCommand], the file as it was.
    What is raised inside the [try] (the [ValueError] of [int]) is caught
    at line 258 and falls through to the truncation of line 261. *)
Definition getCommand (poolModel : PoolModel.t) (serialHandler : SerialHandler.t)
    (commandHandler : CommandHandler.t) (command_queue : option string)
    : option (PoolModel.t * SerialHandler.t * CommandHandler.t * option string) :=
  if CommandHandler.sending_message commandHandler then
    Some (poolModel, serialHandler, commandHandler, command_queue)
  else
    match command_queue with
    | None => Some (poolModel, serialHandler, commandHandler, command_queue)
    | Some content =>
        if (String.length content =? 0)%nat then
          Some (poolModel, serialHandler, commandHandler, command_queue)
        else
          match decode content with
          | None => None
          | Some text =>
          let line := readline text in
          let fields := split_comma line in
          if (List.length fields =? 2)%nat then
            let commandID := nth 0 fields EmptyString in
            match py_int (nth 1 fields EmptyString) with
            | None => Some (poolModel, serialHandler, commandHandler, Some EmptyString)
            | Some frontEndVersion =>
                if negb (frontEndVersion =? PoolModel.version poolModel)%Z then
                  Some (poolModel, serialHandler, commandHandler, Some EmptyString)
                else if key_in commandID button_toggle
                        || String.eqb commandID "pool-spa-spillover" then
                  let commandID := resolveCommandID poolModel commandID in
                  if String.eqb (PoolModel.getParameterState poolModel commandID) "INIT" then
                    Some (poolModel, serialHandler, commandHandler, command_queue)
                  else
                    let currentState := PoolModel.getParameterState poolModel commandID in
                    Some (PoolModel.set_sending_message true poolModel,
                          serialHandler,
                          initiateSend commandID (desiredState commandID currentState) true
                            commandHandler,
                          Some EmptyString)
                else if key_in commandID buttons_menu then
                  Some (poolModel,
                        set_ready_to_send true serialHandler,
                        initiateSend commandID "NA" false commandHandler,
                        Some EmptyString)
                else Some (poolModel, serialHandler, commandHandler, Some EmptyString)
            end
          else Some (poolModel, serialHandler, commandHandler, Some EmptyString)
          end
    end.

(** ** [sendModel] (lines 266-274); the second component counts the emits *)

Definition sendModel (poolModel : PoolModel.t) (emitted : nat) : PoolModel.t * nat :=
  if PoolModel.flag_data_changed poolModel then
    (PoolModel.set_flag_data_changed false poolModel, S emitted)
  else (poolModel, emitted).

(** ** The loop of [main] (lines 286-304) *)

Record World := mkWorld {
  poolModel : PoolModel.t;
  serialHandler : SerialHandler.t;
  commandHandler : CommandHandler.t;
  command_queue : option string;
  emitted : nat
}.

(** What the outside supplies to one pass of the loop: the bytes that have
    arrived on the wire since the last pass, and the clock as [parseBuffer]
    and as [checkCommand] read it. *)
Record Tick := mkTick {
  arrived : bytes;
  clock_parse : Z;
  clock_check : Z
}.

(** One pass of the [while True] body.  [None] is an exception that leaves
    the pass: the [IndexError] of [readSerialBus] or the
    [UnicodeDecodeError] of [getCommand], the two that the code of
    pool-pi.py can raise itself.  What the imported decoders, the port or
    the file system may raise is not part of this model. *)
Definition loop_body (tk : Tick) (w : World) : option World :=
  match readSerialBus (receive (arrived tk) (serialHandler w)) with
  | None => None
  | Some sh1 =>
      let '(pm2, sh2, ch2) :=
        parseBuffer (clock_parse tk) (poolModel w) sh1 (commandHandler w) in
      let '(pm3, sh3, ch3) := checkCommand (clock_check tk) pm2 sh2 ch2 in
      let '(pm4, n4) := sendModel pm3 (emitted w) in
      match getCommand pm4 sh3 ch3 (command_queue w) with
      | None => None
      | Some (pm5, sh5, ch5, q5) => Some (mkWorld pm5 sh5 ch5 q5 n4)
      end
  end.

Fixpoint run (ticks : list Tick) (w : World) : option World :=
  match ticks with
  | [] => Some w
  | tk :: rest =>
      match loop_body tk w with
      | None => None
      | Some w' => run rest w'
      end
  end.

(** ** Observations on a run *)

(** The number of frames written to the bus so far. *)
Definition transmissions (w : World) : nat := List.length (sent (serialHandler w)).

(** Line 147-148: the live state of the target parameter is the target. *)
Definition target_reached (pm : PoolModel.t) (c : CommandHandler.t) : bool :=
  String.eqb (PoolModel.getParameterState pm (CommandHandler.parameter c))
             (CommandHandler.target_state c).

(** The model as [checkCommand] finds it in one pass of the loop. *)
Definition observed_model (tk : Tick) (w : World) : option PoolModel.t :=
  match readSerialBus (receive (arrived tk) (serialHandler w)) with
  | None => None
  | Some sh1 =>
      let '(pm2, _, _) :=
        parseBuffer (clock_parse tk) (poolModel w) sh1 (commandHandler w) in
      Some pm2
  end.

(** In no pass of the run does [checkCommand] find the target parameter in
    the target state. *)
Fixpoint never_reaches_target (ticks : list Tick) (w : World) : bool :=
  match ticks with
  | [] => true
  | tk :: rest =>
      match observed_model tk w, loop_body tk w with
      | Some pm, Some w' =>
          negb (target_reached pm (commandHandler w)) && never_reaches_target rest w'
      | _, _ => true
      end
  end.

(** What a run shows of the handshake: the number of frames sent, the
    ready flag and the keep-alive count. *)
Definition snapshot (w : World) : nat * bool * Z :=
  (transmissions w, ready_to_send (serialHandler w),
   CommandHandler.keep_alive_count (commandHandler w)).

(** The books of a command that is allowed [N] attempts, [base] being what
    was on the bus before it: the frames sent since are copies of the
    command, and their number, the attempts left and the attempt armed but
    not yet sent add up to [N] while the command is in flight; once it is
    dropped, [N] copies have been sent. *)
Definition attempts_account (base : list bytes) (N : nat) (w : World) : Prop :=
  let c := commandHandler w in
  let p := serialHandler w in
  exists k,
    sent p = base ++ repeat (CommandHandler.full_command c) k
    /\ ((CommandHandler.sending_message c = true
         /\ (k + CommandHandler.attempts_remaining c
             + (if ready_to_send p then 1 else 0) = N)%nat)
        \/ (CommandHandler.sending_message c = false
            /\ ready_to_send p = false
            /\ k = N)).

(** The queue file can be read: it does not exist, it is empty, or its
    bytes decode. *)
Definition queue_readable (q : option string) : bool :=
  match q with
  | None => true
  | Some content =>
      (String.length content =? 0)%nat
      || match decode content with
         | Some _ => true
         | None => false
         end
  end.

(** The queue file holds no text. *)
Definition queue_empty (q : option string) : bool :=
  match q with
  | None => true
  | Some text => (String.length text =? 0)%nat
  end.

End Core.


(** ** A sample installation

    One instance of [Collaborators], used to run the functions on concrete
    bytes: a two-byte additive checksum in front of the end delimiter,
    decoders that only stamp the model, and small command tables. *)

Module Sample.

Definition sum_bytes (b : bytes) : Z :=
  fold_left (fun acc x => (acc + int_of_byte x)%Z) b 0%Z.

Definition checksum_ok (frame : bytes) : bool :=
  let n := List.length frame in
  (sum_bytes (firstn (n - 4) frame)
   =? int_from_bytes (firstn 2 (skipn (n - 4) frame)))%Z.

Definition stamp (now : Z) (data : bytes) (m : PoolModel.t) : PoolModel.t :=
  PoolModel.mk (PoolModel.getParameterState m) now (PoolModel.version m)
    (PoolModel.sending_message m) true.

Definition digit_value (c : ascii) : option Z :=
  let n := nat_of_ascii c in
  if ((48 <=? n) && (n <=? 57))%nat then Some (Z.of_nat (n - 48)) else None.

(** Decimal digits, then nothing but line ends. *)
Fixpoint decimal (s : string) (acc : option Z) : option Z :=
  match s with
  | EmptyString => acc
  | String c rest =>
      match digit_value c with
      | Some d =>
          decimal rest (Some (match acc with Some a => a * 10 + d | None => d end)%Z)
      | None =>
          if Ascii.eqb c "010"%char then
            match rest with EmptyString => acc | _ => None end
          else None
      end
  end.

Definition keepalive_frame : bytes := [x10; x02; x01; x01; x00; x14; x10; x03].
Definition leds_frame : bytes :=
  [x10; x02; x01; x02; x04; x00; x00; x00; x00; x19; x10; x03].
Definition press_frame : bytes :=
  [x10; x02; x00; x83; x01; x00; x40; x00; x00; x00; x00; xd6; x10; x03].

(** The text layer of a locale that knows ASCII only. *)
Definition ascii_only (s : string) : option string :=
  if forallb (fun c => (nat_of_ascii c <? 128)%nat) (list_ascii_of_string s)
  then Some s else None.

Definition installation : Collaborators := {|
  confirmChecksum := checksum_ok;
  parseDisplay := stamp;
  parseLEDs := stamp;
  FRAME_TYPE_KEEPALIVE := [x01; x01];
  FRAME_TYPE_DISPLAY := [x01; x03];
  FRAME_TYPE_LEDS := [x01; x02];
  FRAME_TYPE_DISPLAY_SERVICE := [x02; x03];
  FRAME_TYPE_SERVICE_MODE := [x03; x03];
  button_toggle := ["pool"; "spa"; "spillover"; "filter"; "lights"; "service"]%string;
  buttons_menu := ["left"; "right"; "plus"; "minus"; "menu"]%string;
  command_frame := fun _ => press_frame;
  MAX_SEND_ATTEMPTS := 3;
  py_int := fun s => decimal s None;
  decode := ascii_only
|}.

(** A frame arrives on the wire in one piece at clock [c]; the loop then
    needs one pass per byte to take it in. *)
Definition feed (c : Z) (frame : bytes) : list Tick :=
  mkTick frame c (c + 1) :: repeat (mkTick [] c (c + 1)) (List.length frame - 1).

(** Every parameter reads [state]. *)
Definition model (state : string) (stamp_ version_ : Z) : PoolModel.t :=
  PoolModel.mk (fun _ => state) stamp_ version_ false false.

Definition idle_port : SerialHandler.t := SerialHandler.mk [] [] false true false [].

Definition idle_handler : CommandHandler.t :=
  CommandHandler.mk "" "" true false 0 0 [] 0.

(** A toggle of [pool] in flight. *)
Definition toggle_in_flight (count mark : Z) (attempts : nat) : CommandHandler.t :=
  CommandHandler.mk "pool" "ON" true true count mark press_frame attempts.

(** A frame whose data holds 0x10 0x03, stuffed on the wire as
    0x10 0x00 0x03, complete in the buffer, while a command waits for its
    second keep-alive. *)
Definition stuffed_etx_frame : bytes :=
  [x10; x02; x01; x02; x10; x00; x03; x00; x28; x10; x03].
Definition stuffed_etx_port : SerialHandler.t :=
  SerialHandler.mk [x41] stuffed_etx_frame true true true [].

(** A keep-alive with a wrong checksum, complete in the buffer. *)
Definition damaged_frame : bytes := [x10; x02; x01; x01; x00; x15; x10; x03].
Definition damaged_port : SerialHandler.t :=
  SerialHandler.mk [x41] damaged_frame true true true [].

(** A toggle of [pool], allowed two attempts, accepted and not yet armed,
    the model last stamped before the low-water mark. *)
Definition toggle_accepted : World :=
  mkWorld (model "OFF" 50 1) idle_port (toggle_in_flight 0 60 2) None 0.

(** An update arms the toggle; a second update arrives before the two
    keep-alives that send it; a third keep-alive follows. *)
Definition armed_then_updated : list Tick :=
  feed 100 leds_frame ++ feed 150 leds_frame.
Definition first_keepalive : list Tick :=
  armed_then_updated ++ feed 200 keepalive_frame.
Definition second_keepalive : list Tick :=
  first_keepalive ++ feed 300 keepalive_frame.
Definition third_keepalive : list Tick :=
  second_keepalive ++ feed 400 keepalive_frame.

(** Three rounds of an update that shows no change followed by two
    keep-alives. *)
Definition three_rounds : list Tick :=
  feed 100 leds_frame ++ feed 200 keepalive_frame ++ feed 300 keepalive_frame
  ++ feed 400 leds_frame ++ feed 500 keepalive_frame ++ feed 600 keepalive_frame
  ++ feed 700 leds_frame ++ feed 800 keepalive_frame ++ feed 900 keepalive_frame.

End Sample.

(** ** Successive calls of the framer *)

(** [n] calls of [readSerialBus] in a row, as the loop makes them while no
    frame is complete; [None] as soon as one of them raises. *)
Fixpoint calls (n : nat) (sh : SerialHandler.t) : option SerialHandler.t :=
  match n with
  | O => Some sh
  | S n' =>
      match readSerialBus sh with
      | None => None
      | Some sh' => calls n' sh'
      end
  end.

(** The port as the framer leaves it when it has completed [frame]: the
    frame in the buffer, marked full (see [framer_assembles_frame]). *)
Definition with_frame (frame : bytes) (sh : SerialHandler.t) : SerialHandler.t :=
  set_buffer_full true (set_buffer frame sh).

(** ** More sample data *)

Module Cases.

(** Nothing in flight, no queue file. *)
Definition idle_world : World :=
  mkWorld (Sample.model "OFF" 0 1) Sample.idle_port Sample.idle_handler None 0.

(** A menu button accepted and ready to send. *)
Definition menu_ready : World :=
  mkWorld (Sample.model "OFF" 0 1)
    (set_ready_to_send true Sample.idle_port)
    (initiateSend (H:=Sample.installation) "menu" "NA" false Sample.idle_handler)
    None 0.

Definition bus_traffic : list Tick :=
  Sample.feed 100 Sample.keepalive_frame ++ Sample.feed 200 Sample.keepalive_frame
  ++ Sample.feed 300 Sample.leds_frame ++ Sample.feed 400 Sample.keepalive_frame.

(** Pool is on, everything else is off. *)
Definition pool_on : PoolModel.t :=
  PoolModel.mk (fun p => if String.eqb p "pool" then "ON" else "OFF")%string
    0 1 false false.

(** The filter pump has not reported yet. *)
Definition filter_unknown : PoolModel.t :=
  PoolModel.mk (fun p => if String.eqb p "filter" then "INIT" else "OFF")%string
    0 1 false false.

(** Two queued lines, the first ended by a lone carriage return. *)
Definition two_lines : string :=
  ("spa,1" ++ String "013"%char "pool,1")%string.

(** A queue file that holds a byte outside ASCII. *)
Definition undecodable : string := String "255"%char "pool,1".

(** The menu button of [menu_ready], as [getCommand] leaves the port and
    the handler. *)
Definition menu_port : SerialHandler.t := set_ready_to_send true Sample.idle_port.
Definition menu_handler : CommandHandler.t :=
  initiateSend (H:=Sample.installation) "menu" "NA" false Sample.idle_handler.

End Cases.

(** * Properties *)

Arguments bytes_eqb : simpl never.
Arguments index_from_end : simpl never.
Arguments int_from_bytes : simpl never.

(** ** Byte strings *)

Lemma bytes_eqb_eq (a b : bytes) : bytes_eqb a b = true <-> a = b.
Proof.
  revert b; induction a as [|x a IH]; intros [|y b]; cbv [bytes_eqb]; fold bytes_eqb; split;
    try congruence; try reflexivity.
  - intros E. apply andb_prop in E as [E1 E2].
    apply Byte.byte_dec_bl in E1. apply IH in E2. congruence.
  - intros E. injection E as -> ->.
    rewrite (Byte.byte_dec_lb eq_refl). now apply IH.
Qed.

Lemma bytes_eqb_refl (a : bytes) : bytes_eqb a a = true.
Proof. now apply bytes_eqb_eq. Qed.

Lemma is_prefix_spec (p b : bytes) :
  is_prefix p b = true <-> exists post, b = p ++ post.
Proof.
  revert b; induction p as [|x p IH]; intros b; simpl.
  - split; [intros _; now exists b | reflexivity].
  - destruct b as [|y b].
    + split; [discriminate | intros [post E]; discriminate].
    + split.
      * intros E. apply andb_prop in E as [E1 E2].
        apply Byte.byte_dec_bl in E1. apply IH in E2 as [post ->].
        exists post. now subst.
      * intros [post E]. injection E as -> ->.
        rewrite (Byte.byte_dec_lb eq_refl). simpl. apply IH. now exists post.
Qed.

(** [bytes_in] is containment as a contiguous run. *)
Lemma bytes_in_spec (needle hay : bytes) :
  bytes_in needle hay = true <-> exists pre post, hay = pre ++ needle ++ post.
Proof.
  induction hay as [|y hay IH].
  - simpl. rewrite orb_false_r, is_prefix_spec. split.
    + intros [post E]. now exists [], post.
    + intros (pre & post & E). destruct pre; [now exists post|discriminate].
  - cbn [bytes_in]. rewrite orb_true_iff, is_prefix_spec, IH. split.
    + intros [[post E]|(pre & post & E)].
      * now exists [], post.
      * exists (y :: pre), post. now rewrite E.
    + intros (pre & post & E). destruct pre as [|z pre].
      * left. now exists post.
      * right. injection E as -> E. now exists pre, post.
Qed.

(** [frame[2:-2]] is what lies between the first two and the last two bytes. *)
Lemma slice_to_end_inner (s0 s1 e0 e1 : byte) (inner : bytes) :
  slice_to_end 2 2 ([s0; s1] ++ inner ++ [e0; e1]) = inner.
Proof.
  unfold slice_to_end. cbn [app skipn List.length].
  rewrite length_app. cbn [List.length].
  replace (S (S (List.length inner + 2)) - 2 - 2)%nat with (List.length inner) by lia.
  rewrite firstn_app, firstn_all, Nat.sub_diag. simpl. apply app_nil_r.
Qed.

(** ** Stuffing *)

(** C7.  Destuffing undoes stuffing: for every byte string [P], also one
    that holds 0x10 bytes, replacing each 0x10 by 0x10 0x00 and then
    replacing, from left to right, each 0x10 0x00 by 0x10 gives [P] back. *)
Theorem destuff_stuff (P : bytes) : destuff (stuff P) = P.
Proof.
  induction P as [|b P IH]; [reflexivity|].
  cbn [stuff]. destruct (Byte.eqb b x10) eqn:E.
  - apply Byte.byte_dec_bl in E. subst b.
    cbn [destuff]. rewrite (Byte.byte_dec_lb (x:=x10) eq_refl).
    rewrite (Byte.byte_dec_lb (x:=x00) eq_refl). now rewrite IH.
  - cbn [destuff]. rewrite E. now rewrite IH.
Qed.

(** ** The framer *)

Section Framer.

(** C3, as amended.  One call of [readSerialBus] takes at most two bytes off
    the port: at most one while a frame is being accumulated, and two only
    while it looks for the start of a frame and the first byte read is DLE. *)
Theorem readSerialBus_consumes (sh sh' : SerialHandler.t) :
  readSerialBus sh = Some sh' ->
  exists consumed,
    pending sh = consumed ++ pending sh'
    /\ (List.length consumed <= 2)%nat
    /\ (looking_for_start sh = false -> (List.length consumed <= 1)%nat)
    /\ (List.length consumed = 2%nat ->
        looking_for_start sh = true /\ firstn 1 consumed = DLE).
Proof.
  unfold readSerialBus, read, in_waiting.
  destruct sh as [p buf full seek rdy out]; simpl.
  destruct p as [|a p]; simpl.
  { intros [= <-]. exists []; simpl. repeat split; auto; discriminate. }
  destruct full; simpl.
  { intros [= <-]. exists []; simpl. repeat split; auto; discriminate. }
  destruct seek; simpl.
  - destruct (bytes_eqb [a] DLE) eqn:Ea; simpl.
    + apply bytes_eqb_eq in Ea.
      destruct p as [|b p]; simpl.
      * intros [= <-]. exists [a]; simpl. repeat split; auto; discriminate.
      * destruct (bytes_eqb [b] STX); intros [= <-]; exists [a; b]; simpl;
          repeat split; auto; discriminate.
    + intros [= <-]. exists [a]; simpl. repeat split; auto; discriminate.
  - destruct (bytes_eqb [a] ETX); simpl.
    + destruct (index_from_end (buf ++ [a]) 2) as [z|]; [|discriminate].
      destruct (z =? int_from_bytes DLE)%Z; intros [= <-]; exists [a]; simpl;
        repeat split; auto; discriminate.
    + intros [= <-]. exists [a]; simpl. repeat split; auto; discriminate.
Qed.

(** A call made while it looks for the start of a frame, with DLE STX next
    on the port, takes both bytes. *)
Lemma readSerialBus_consumes_witness :
  exists consumed,
    [x10; x02; x41] = consumed ++ [x41]
    /\ (List.length consumed <= 2)%nat
    /\ (true = false -> (List.length consumed <= 1)%nat)
    /\ (List.length consumed = 2%nat -> true = true /\ firstn 1 consumed = DLE).
Proof.
  exact (@readSerialBus_consumes
           (SerialHandler.mk [x10; x02; x41] [] false true false [])
           (SerialHandler.mk [x41] [x10; x02] false false false [])
           eq_refl).
Defined.

(** C3, as stated, fails: looking for the start of a frame, a call that
    reads DLE reads the next byte too. *)
Lemma readSerialBus_one_byte_counterexample :
  ~ (forall sh sh',
        readSerialBus sh = Some sh' ->
        exists consumed,
          pending sh = consumed ++ pending sh' /\ (List.length consumed <= 1)%nat).
Proof.
  intros claim.
  destruct (claim (SerialHandler.mk [x10; x02; x41] [] false true false [])
                  (SerialHandler.mk [x41] [x10; x02] false false false [])
                  eq_refl) as (consumed & E & L).
  cbn [pending] in E.
  destruct consumed as [|c0 [|c1 rest]]; cbn in E, L; try discriminate; lia.
Qed.

(** C5, as amended.  With a complete frame in the buffer, a call of
    [readSerialBus] changes nothing at all: the buffer and the flags stay,
    and no byte is read, so what has arrived stays on the port. *)
Theorem readSerialBus_full_buffer (sh : SerialHandler.t) :
  buffer_full sh = true -> readSerialBus sh = Some sh.
Proof.
  intros F. unfold readSerialBus. rewrite F.
  now destruct (in_waiting sh =? 0)%nat.
Qed.

Lemma readSerialBus_full_buffer_witness :
  readSerialBus
    (SerialHandler.mk [x41; x42] Sample.keepalive_frame true true false [])
  = Some (SerialHandler.mk [x41; x42] Sample.keepalive_frame true true false []).
Proof.
  exact (@readSerialBus_full_buffer
           (SerialHandler.mk [x41; x42] Sample.keepalive_frame true true false [])
           eq_refl).
Defined.

(** C5, as stated, fails: the bytes that arrive while a complete frame waits
    are not dropped; none of them is taken off the port. *)
Lemma readSerialBus_drops_counterexample :
  ~ (forall sh,
        buffer_full sh = true ->
        pending sh <> [] ->
        exists sh',
          readSerialBus sh = Some sh'
          /\ buffer sh' = buffer sh
          /\ (List.length (pending sh') < List.length (pending sh))%nat).
Proof.
  intros claim.
  destruct (claim (SerialHandler.mk [x41; x42] Sample.keepalive_frame true true false [])
                  eq_refl ltac:(discriminate)) as (sh' & R & _ & L).
  injection R as <-. cbn in L. lia.
Qed.

(** *** The shape of the buffer *)

Lemma int_of_byte_DLE (x : byte) : int_of_byte x = int_from_bytes DLE -> x = x10.
Proof. destruct x; intros E; try reflexivity; vm_compute in E; discriminate E. Qed.

Lemma index_from_end_snoc (b : bytes) (x a : byte) :
  index_from_end ((b ++ [x]) ++ [a]) 2 = Some (int_of_byte x).
Proof.
  unfold index_from_end. now rewrite !rev_app_distr.
Qed.

Lemma framed_reset (sh : SerialHandler.t) : framed (reset sh).
Proof. split; cbn; discriminate. Qed.

Lemma framed_receive (bs : bytes) (sh : SerialHandler.t) :
  framed sh -> framed (receive bs sh).
Proof. now destruct sh. Qed.

(** From a buffer of that shape [readSerialBus] never raises, and it keeps
    the shape. *)
Lemma readSerialBus_framed (sh : SerialHandler.t) :
  framed sh -> exists sh', readSerialBus sh = Some sh' /\ framed sh'.
Proof.
  intros [A F]. unfold readSerialBus, read, in_waiting.
  destruct sh as [p buf full seek rdy out]; simpl in *.
  destruct p as [|a p]; simpl.
  { eexists. split; [reflexivity|]. now split. }
  destruct full; simpl.
  { eexists. split; [reflexivity|]. now split. }
  destruct seek; simpl.
  - destruct (bytes_eqb [a] DLE); simpl.
    + destruct p as [|b p]; simpl.
      * eexists. split; [reflexivity|]. now split.
      * destruct (bytes_eqb [b] STX); eexists; (split; [reflexivity|]);
          split; simpl; try discriminate; auto.
        intros _. now exists [].
    + eexists. split; [reflexivity|]. now split.
  - destruct (A eq_refl) as [tl Hb].
    destruct (exists_last (l:=buf)) as (b & x & B).
    { rewrite Hb. discriminate. }
    destruct (bytes_eqb [a] ETX) eqn:E.
    + apply bytes_eqb_eq in E. injection E as ->.
      rewrite B, index_from_end_snoc.
      destruct (Z.eqb_spec (int_of_byte x) (int_from_bytes DLE)) as [D|D].
      * apply int_of_byte_DLE in D. subst x.
        eexists. split; [reflexivity|]. split; simpl; [discriminate|]. intros _.
        destruct (exists_last (l:=tl)) as (mid & y & T).
        { intros ->. rewrite Hb in B. destruct b as [|? [|? [|? ?]]]; cbn in B; discriminate B. }
        subst tl. exists mid. rewrite Hb in B.
        change (x10 :: x02 :: mid ++ [y]) with ((x10 :: x02 :: mid) ++ [y]) in B.
        apply app_inj_tail in B as [<- _].
        cbn. now rewrite <- !app_assoc.
      * eexists. split; [reflexivity|]. split; simpl; [|discriminate].
        intros _. rewrite <- B, Hb. now exists (tl ++ [x03]).
    + eexists. split; [reflexivity|]. split; simpl; [|discriminate].
      intros _. rewrite Hb. now exists (tl ++ [a]).
Qed.

(** Destuffing keeps the DLE ETX that ends a frame, and the DLE STX that
    starts it. *)
Lemma destuff_keeps_end : forall n (mid : bytes),
  (List.length mid <= n)%nat ->
  exists inner, destuff (mid ++ [x10; x03]) = inner ++ [x10; x03].
Proof.
  induction n as [|n IH]; intros mid L.
  - destruct mid; [|cbn in L; lia]. now exists [].
  - destruct mid as [|b mid]; [now exists []|].
    cbn [app destuff]. destruct (Byte.eqb b x10) eqn:E.
    + apply Byte.byte_dec_bl in E. subst b.
      destruct mid as [|c mid].
      * cbn [app]. exists [x10]. reflexivity.
      * cbn [app]. destruct (Byte.eqb c x00).
        -- destruct (IH mid) as [inner ->]; [cbn in L; lia|].
           now exists (x10 :: inner).
        -- destruct (IH (c :: mid)) as [inner I]; [cbn in *; lia|].
           cbn [app] in I. rewrite I. now exists (x10 :: inner).
    + destruct (IH mid) as [inner ->]; [cbn in L; lia|].
      now exists (b :: inner).
Qed.

(** A complete frame, destuffed, is still two bytes of start, what lies
    between, and two bytes of end. *)
Lemma destuff_full_buffer (sh : SerialHandler.t) :
  framed sh ->
  buffer_full sh = true ->
  exists inner, destuff (buffer sh) = [x10; x02] ++ inner ++ [x10; x03].
Proof.
  intros [_ F] B. destruct (F B) as [mid ->].
  destruct (@destuff_keeps_end (List.length mid) mid (le_n _)) as [inner I].
  exists inner. cbn [app destuff Byte.eqb].
  change (Byte.eqb x10 x10) with true. change (Byte.eqb x02 x00) with false.
  change (Byte.eqb x02 x10) with false. cbn iota. now rewrite I.
Qed.

End Framer.

(** ** Validation and dispatch *)

Section Dispatch.

Context `{Collaborators}.

Lemma parseBuffer_no_frame now pm sh ch :
  buffer_full sh = false -> parseBuffer now pm sh ch = (pm, sh, ch).
Proof. intros F. unfold parseBuffer. now rewrite F. Qed.

Lemma parseBuffer_rejected now pm sh ch r :
  buffer_full sh = true ->
  validate (buffer sh) = Rejected r ->
  parseBuffer now pm sh ch = (pm, reset sh, ch).
Proof. intros F V. unfold parseBuffer. now rewrite F, V. Qed.

(** What [parseBuffer] does with a valid keep-alive frame. *)
Lemma parseBuffer_keepalive now pm sh ch ty data :
  buffer_full sh = true ->
  validate (buffer sh) = ValidFrame ty data ->
  bytes_eqb ty FRAME_TYPE_KEEPALIVE = true ->
  parseBuffer now pm sh ch =
    if ready_to_send sh then
      if (CommandHandler.keep_alive_count ch =? 1)%Z then
        (pm,
         reset (set_ready_to_send false (send (CommandHandler.full_command ch) sh)),
         if negb (CommandHandler.confirm ch)
         then CommandHandler.set_sending_message false ch else ch)
      else (pm, reset sh, CommandHandler.set_keep_alive_count 1 ch)
    else (pm, reset sh, CommandHandler.set_keep_alive_count 0 ch).
Proof. intros F V K. unfold parseBuffer. now rewrite F, V, K. Qed.

(** What [parseBuffer] does with any other valid frame: the count goes to
    zero, the port is reset, and only the model may change. *)
Lemma parseBuffer_other now pm sh ch ty data :
  buffer_full sh = true ->
  validate (buffer sh) = ValidFrame ty data ->
  bytes_eqb ty FRAME_TYPE_KEEPALIVE = false ->
  exists pm',
    parseBuffer now pm sh ch = (pm', reset sh, CommandHandler.set_keep_alive_count 0 ch).
Proof.
  intros F V K. unfold parseBuffer. rewrite F, V, K. eexists. reflexivity.
Qed.

(** C6.  A complete frame is rejected as [SpuriousDelimiter] when, after
    destuffing, what lies between its first two and its last two bytes
    holds 0x10 0x02 or 0x10 0x03, and as [ChecksumMismatch] when it holds
    neither and the checksum test fails.  Every rejection resets the framer
    (buffer emptied, looking for a start again) and leaves the model and
    the command handler as they were: nothing is parsed. *)
Theorem parseBuffer_rejects now pm sh ch s0 s1 inner e0 e1 :
  buffer_full sh = true ->
  destuff (buffer sh) = [s0; s1] ++ inner ++ [e0; e1] ->
  ((exists pre post, inner = pre ++ [x10; x02] ++ post)
   \/ (exists pre post, inner = pre ++ [x10; x03] ++ post) ->
   validate (buffer sh) = Rejected SpuriousDelimiter)
  /\ (~ (exists pre post, inner = pre ++ [x10; x02] ++ post) ->
      ~ (exists pre post, inner = pre ++ [x10; x03] ++ post) ->
      confirmChecksum (destuff (buffer sh)) = false ->
      validate (buffer sh) = Rejected ChecksumMismatch)
  /\ (forall r,
        validate (buffer sh) = Rejected r ->
        parseBuffer now pm sh ch = (pm, reset sh, ch)
        /\ buffer (reset sh) = []
        /\ looking_for_start (reset sh) = true
        /\ buffer_full (reset sh) = false).
Proof.
  intros F D. split; [|split].
  - unfold validate. rewrite D, slice_to_end_inner.
    intros [C|C]; apply bytes_in_spec in C; rewrite C.
    + reflexivity.
    + now destruct (bytes_in [x10; x02] inner).
  - intros N2 N3 K. unfold validate. rewrite K. rewrite D, slice_to_end_inner.
    destruct (bytes_in [x10; x02] inner) eqn:B2.
    { apply bytes_in_spec in B2. contradiction. }
    destruct (bytes_in [x10; x03] inner) eqn:B3.
    { apply bytes_in_spec in B3. contradiction. }
    reflexivity.
  - intros r V. rewrite (parseBuffer_rejected now pm sh ch F V).
    destruct sh; repeat split; reflexivity.
Qed.

(** C10.  A rejected frame leaves the handshake as it was: the command
    handler, with its keep-alive count, is the same; nothing is sent; the
    ready-to-send flag and the model are the same; only the framer is
    reset.  A valid frame that is not a keep-alive, by contrast, puts the
    count to zero. *)
Theorem rejected_frame_keeps_handshake now pm sh ch r :
  buffer_full sh = true ->
  validate (buffer sh) = Rejected r ->
  (exists sh',
      parseBuffer now pm sh ch = (pm, sh', ch)
      /\ sh' = reset sh
      /\ sent sh' = sent sh
      /\ ready_to_send sh' = ready_to_send sh
      /\ pending sh' = pending sh)
  /\ (forall sh2 ty data,
        buffer_full sh2 = true ->
        validate (buffer sh2) = ValidFrame ty data ->
        bytes_eqb ty FRAME_TYPE_KEEPALIVE = false ->
        CommandHandler.keep_alive_count (snd (parseBuffer now pm sh2 ch)) = 0%Z).
Proof.
  intros F V. split.
  - exists (reset sh). rewrite (parseBuffer_rejected now pm sh ch F V).
    destruct sh; repeat split; reflexivity.
  - intros sh2 ty data F2 V2 K2.
    destruct (parseBuffer_other now pm sh2 ch F2 V2 K2) as [pm' ->].
    reflexivity.
Qed.

End Dispatch.

(** ** Confirmation *)

Section Confirmation.

(** [checkCommand] looks at nothing unless a command is in flight and not
    waiting for its keep-alives. *)
Lemma checkCommand_idle now pm sh ch :
  CommandHandler.sending_message ch = false ->
  checkCommand now pm sh ch = (pm, sh, ch).
Proof. intros S. unfold checkCommand. now rewrite S. Qed.

Lemma checkCommand_ready now pm sh ch :
  ready_to_send sh = true ->
  checkCommand now pm sh ch = (pm, sh, ch).
Proof.
  intros R. unfold checkCommand. rewrite R.
  now destruct (CommandHandler.sending_message ch).
Qed.

(** C2, as amended.  A model whose time stamp is strictly older than the
    low-water mark triggers nothing in [checkCommand]: no comparison, no
    retry, no change of the model, the port or the command handler.  (A
    time stamp equal to the mark counts as new.) *)
Theorem checkCommand_older_than_mark now pm sh ch :
  (PoolModel.timestamp pm < CommandHandler.last_model_timestamp_seen ch)%Z ->
  checkCommand now pm sh ch = (pm, sh, ch).
Proof.
  intros L. unfold checkCommand.
  destruct (CommandHandler.sending_message ch); [|reflexivity].
  destruct (ready_to_send sh); [reflexivity|]. cbn [negb].
  destruct (Z.geb_spec (PoolModel.timestamp pm)
                       (CommandHandler.last_model_timestamp_seen ch)); [lia|reflexivity].
Qed.

Lemma checkCommand_older_than_mark_witness :
  checkCommand 9 (Sample.model "ON" 6 1) Sample.idle_port (Sample.toggle_in_flight 0 7 1)
  = (Sample.model "ON" 6 1, Sample.idle_port, Sample.toggle_in_flight 0 7 1).
Proof.
  apply (@checkCommand_older_than_mark 9 (Sample.model "ON" 6 1) Sample.idle_port
           (Sample.toggle_in_flight 0 7 1)).
  reflexivity.
Defined.

(** With a command in flight and not ready to send, a model stamped at or
    after the mark is always acted on: the command is confirmed, armed for
    another attempt, or given up. *)
Lemma checkCommand_at_or_after_mark now pm sh ch :
  CommandHandler.sending_message ch = true ->
  ready_to_send sh = false ->
  (PoolModel.timestamp pm >= CommandHandler.last_model_timestamp_seen ch)%Z ->
  checkCommand now pm sh ch =
    if target_reached pm ch then
      (PoolModel.set_flag_data_changed true (PoolModel.set_sending_message false pm),
       sh, CommandHandler.set_sending_message false ch)
    else
      match CommandHandler.attempts_remaining ch with
      | O => (pm, sh, CommandHandler.set_sending_message false ch)
      | S n =>
          (pm, set_ready_to_send true sh,
           CommandHandler.set_last_model_timestamp_seen now
             (CommandHandler.set_attempts_remaining n ch))
      end.
Proof.
  intros S R G. unfold checkCommand, target_reached. rewrite S, R. cbn [negb].
  destruct (Z.geb_spec (PoolModel.timestamp pm)
                       (CommandHandler.last_model_timestamp_seen ch)); [|lia].
  destruct (String.eqb _ _); [reflexivity|].
  unfold CommandHandler.sendAttemptsRemain.
  now destruct (CommandHandler.attempts_remaining ch).
Qed.

(** C2, as stated, fails: a model stamped exactly at the low-water mark is
    compared, and here confirms the command. *)
Lemma checkCommand_equal_stamp_counterexample :
  ~ (forall now pm sh ch,
        CommandHandler.sending_message ch = true ->
        ready_to_send sh = false ->
        (PoolModel.timestamp pm <= CommandHandler.last_model_timestamp_seen ch)%Z ->
        checkCommand now pm sh ch = (pm, sh, ch)).
Proof.
  intros claim.
  specialize (claim 9%Z (Sample.model "ON" 7 1) Sample.idle_port
                    (Sample.toggle_in_flight 0 7 1) eq_refl eq_refl ltac:(cbn; lia)).
  discriminate claim.
Qed.

End Confirmation.

(** ** The handshake *)

Section Handshake.

Context `{Collaborators}.

(** [parseBuffer] either leaves the bus, the ready flag and the command
    alone, or, on a keep-alive with the flag up and the count at one, sends
    the command once and lowers the flag. *)
Lemma parseBuffer_cases now pm sh ch pm' sh' ch' :
  parseBuffer now pm sh ch = (pm', sh', ch') ->
  CommandHandler.parameter ch' = CommandHandler.parameter ch
  /\ CommandHandler.target_state ch' = CommandHandler.target_state ch
  /\ CommandHandler.confirm ch' = CommandHandler.confirm ch
  /\ CommandHandler.full_command ch' = CommandHandler.full_command ch
  /\ CommandHandler.attempts_remaining ch' = CommandHandler.attempts_remaining ch
  /\ pending sh' = pending sh
  /\ ((sent sh' = sent sh
       /\ ready_to_send sh' = ready_to_send sh
       /\ CommandHandler.sending_message ch' = CommandHandler.sending_message ch)
      \/ (ready_to_send sh = true
          /\ CommandHandler.keep_alive_count ch = 1%Z
          /\ CommandHandler.keep_alive_count ch' = 1%Z
          /\ pm' = pm
          /\ sent sh' = sent sh ++ [CommandHandler.full_command ch]
          /\ ready_to_send sh' = false
          /\ CommandHandler.sending_message ch' =
             (CommandHandler.confirm ch && CommandHandler.sending_message ch)%bool)).
Proof.
  unfold parseBuffer.
  destruct (buffer_full sh) eqn:F.
  2:{ intros [= <- <- <-]. repeat split; auto. }
  destruct (validate (buffer sh)) as [r|ty data].
  { intros [= <- <- <-]. destruct sh; repeat split; auto. }
  destruct (bytes_eqb ty FRAME_TYPE_KEEPALIVE).
  2:{ intros [= <- <- <-]. destruct sh, ch; repeat split; auto. }
  destruct (ready_to_send sh) eqn:R.
  2:{ intros [= <- <- <-]. destruct sh, ch; cbn in *; repeat split; auto. }
  destruct (Z.eqb_spec (CommandHandler.keep_alive_count ch) 1) as [K|K].
  2:{ intros [= <- <- <-]. destruct sh, ch; cbn in *; repeat split; auto. }
  intros [= <- <- <-].
  destruct sh, ch as [p t c s k l f a]; cbn in *. subst.
  destruct c; cbn; repeat split; auto; right; repeat split; auto.
Qed.

(** [checkCommand] writes nothing to the bus and keeps what the command is. *)
Lemma checkCommand_keeps now pm sh ch pm' sh' ch' :
  checkCommand now pm sh ch = (pm', sh', ch') ->
  CommandHandler.parameter ch' = CommandHandler.parameter ch
  /\ CommandHandler.target_state ch' = CommandHandler.target_state ch
  /\ CommandHandler.confirm ch' = CommandHandler.confirm ch
  /\ CommandHandler.full_command ch' = CommandHandler.full_command ch
  /\ CommandHandler.keep_alive_count ch' = CommandHandler.keep_alive_count ch
  /\ sent sh' = sent sh
  /\ pending sh' = pending sh
  /\ buffer sh' = buffer sh
  /\ buffer_full sh' = buffer_full sh
  /\ looking_for_start sh' = looking_for_start sh.
Proof.
  unfold checkCommand.
  destruct (CommandHandler.sending_message ch); cbn [negb].
  2:{ intros [= <- <- <-]. repeat split; auto. }
  destruct (ready_to_send sh).
  { intros [= <- <- <-]. repeat split; auto. }
  destruct (_ >=? _)%Z.
  2:{ intros [= <- <- <-]. repeat split; auto. }
  destruct (String.eqb _ _).
  { intros [= <- <- <-]. destruct ch; repeat split; auto. }
  unfold CommandHandler.sendAttemptsRemain.
  destruct (CommandHandler.attempts_remaining ch);
    intros [= <- <- <-]; destruct sh, ch; repeat split; auto.
Qed.

(** With a command in flight, [getCommand] does not look at the queue. *)
Lemma getCommand_busy pm sh ch q :
  CommandHandler.sending_message ch = true ->
  getCommand pm sh ch q = Some (pm, sh, ch, q).
Proof. intros S. unfold getCommand. now rewrite S. Qed.

(** With no text in the queue, [getCommand] does nothing. *)
Lemma getCommand_no_text pm sh ch q :
  queue_empty q = true ->
  getCommand pm sh ch q = Some (pm, sh, ch, q).
Proof.
  intros E. unfold getCommand.
  destruct (CommandHandler.sending_message ch); [reflexivity|].
  destruct q as [text|]; [|reflexivity].
  cbn in E. now rewrite E.
Qed.

(** The ways [getCommand] can end: nothing taken up, or one of the two
    calls of [initiateSend]. *)
Lemma getCommand_cases pm sh ch q pm' sh' ch' q' :
  getCommand pm sh ch q = Some (pm', sh', ch', q') ->
  (pm' = pm /\ sh' = sh /\ ch' = ch)
  \/ (exists commandID,
         PoolModel.getParameterState pm commandID <> "INIT"%string
         /\ pm' = PoolModel.set_sending_message true pm
         /\ sh' = sh
         /\ ch' = initiateSend commandID
                    (desiredState commandID (PoolModel.getParameterState pm commandID))
                    true ch)
  \/ (exists commandID,
         pm' = pm
         /\ sh' = set_ready_to_send true sh
         /\ ch' = initiateSend commandID "NA" false ch).
Proof.
  unfold getCommand.
  destruct (CommandHandler.sending_message ch).
  { intros [= <- <- <- <-]. now left. }
  destruct q as [text|].
  2:{ intros [= <- <- <- <-]. now left. }
  destruct (String.length text =? 0)%nat.
  { intros [= <- <- <- <-]. now left. }
  destruct (decode text) as [decoded|]; [|discriminate].
  destruct (List.length (split_comma (readline decoded)) =? 2)%nat.
  2:{ intros [= <- <- <- <-]. now left. }
  destruct (py_int _) as [v|].
  2:{ intros [= <- <- <- <-]. now left. }
  destruct (negb (v =? PoolModel.version pm)%Z).
  { intros [= <- <- <- <-]. now left. }
  destruct (key_in _ button_toggle || String.eqb _ "pool-spa-spillover")%bool.
  - destruct (String.eqb_spec
                (PoolModel.getParameterState pm
                   (resolveCommandID pm
                      (nth 0 (split_comma (readline decoded)) EmptyString)))
                "INIT") as [I|I].
    + intros [= <- <- <- <-]. now left.
    + intros [= <- <- <- <-]. right. left. eexists. repeat split. exact I.
  - destruct (key_in _ buttons_menu).
    + intros [= <- <- <- <-]. right. right. eexists. repeat split.
    + intros [= <- <- <- <-]. now left.
Qed.

(** C8.  When [getCommand] accepts a command that needs confirmation, the
    target state is fixed from the state the model shows for the parameter
    at that moment: for [service], ON gives BLINK, BLINK gives OFF and
    anything else gives ON; for every other parameter, ON gives OFF and
    anything else gives ON.  Afterwards it is not computed again:
    [parseBuffer] and [checkCommand] never write the target state, and
    [getCommand] touches nothing while the command is in flight. *)
Theorem getCommand_fixes_target pm sh ch q pm' sh' ch' q' :
  getCommand pm sh ch q = Some (pm', sh', ch', q') ->
  CommandHandler.sending_message ch = false ->
  CommandHandler.sending_message ch' = true ->
  CommandHandler.confirm ch' = true ->
  let p := CommandHandler.parameter ch' in
  let s := PoolModel.getParameterState pm p in
  let target := CommandHandler.target_state ch' in
  s <> "INIT"%string
  /\ (p = "service"%string ->
     (s = "ON"%string -> target = "BLINK"%string)
     /\ (s = "BLINK"%string -> target = "OFF"%string)
     /\ (s <> "ON"%string -> s <> "BLINK"%string -> target = "ON"%string))
  /\ (p <> "service"%string ->
      (s = "ON"%string -> target = "OFF"%string)
      /\ (s <> "ON"%string -> target = "ON"%string))
  /\ (forall now pm1 sh1 ch1,
        CommandHandler.target_state (snd (parseBuffer now pm1 sh1 ch1)) =
        CommandHandler.target_state ch1)
  /\ (forall now pm1 sh1 ch1,
        CommandHandler.target_state (snd (checkCommand now pm1 sh1 ch1)) =
        CommandHandler.target_state ch1)
  /\ (forall pm1 sh1 ch1 q1,
        CommandHandler.sending_message ch1 = true ->
        getCommand pm1 sh1 ch1 q1 = Some (pm1, sh1, ch1, q1)).
Proof.
  intros G S S' C p s target.
  assert (T : s <> "INIT"%string /\ target = desiredState p s).
  { destruct (getCommand_cases _ _ _ _ G) as [(_ & _ & E)|[(id & I & _ & _ & E)|(id & _ & _ & E)]].
    - subst ch'. congruence.
    - subst ch'. split; [exact I|reflexivity].
    - subst ch'. discriminate C. }
  destruct T as [I T]. rewrite T. unfold desiredState.
  split; [exact I|]. split; [|split; [|split; [|split]]].
  - intros ->. cbn [String.eqb Ascii.eqb Bool.eqb].
    destruct (String.eqb_spec s "ON"), (String.eqb_spec s "BLINK");
      repeat split; intros; congruence.
  - intros N. destruct (String.eqb_spec p "service"); [contradiction|].
    destruct (String.eqb_spec s "ON"); split; intros; congruence.
  - intros now pm1 sh1 ch1.
    destruct (parseBuffer now pm1 sh1 ch1) as [[pm2 sh2] ch2] eqn:E.
    now apply parseBuffer_cases in E.
  - intros now pm1 sh1 ch1.
    destruct (checkCommand now pm1 sh1 ch1) as [[pm2 sh2] ch2] eqn:E.
    now apply checkCommand_keeps in E.
  - intros pm1 sh1 ch1 q1. apply getCommand_busy.
Qed.

(** [parseBuffer] sends nothing unless the ready flag is up. *)
Lemma parseBuffer_not_ready now pm sh ch :
  ready_to_send sh = false ->
  sent (snd (fst (parseBuffer now pm sh ch))) = sent sh.
Proof.
  intros R. destruct (parseBuffer now pm sh ch) as [[pm' sh'] ch'] eqn:E.
  apply parseBuffer_cases in E as (_ & _ & _ & _ & _ & _ & [(E & _)|(R' & _)]).
  - exact E.
  - congruence.
Qed.

(** C4, as amended.  A command that needs no confirmation is ready to send
    as soon as [getCommand] has accepted it: the ready flag is up when that
    call returns, the model is not marked as sending, and [checkCommand]
    has nothing to wait for.  Its transmission is held to the keep-alive
    rule like that of any command: a keep-alive that finds the count at
    another value than one sends nothing and puts the count to one, and a
    keep-alive that finds the count at one sends the command.  It is then
    sent once, and the handler is idle at once: the command is no longer
    in flight, the ready flag is down, [checkCommand] has nothing to
    confirm or retry, and no later frame makes [parseBuffer] send again. *)
Theorem getCommand_fire_and_forget pm sh ch q pm' sh' ch' q' :
  getCommand pm sh ch q = Some (pm', sh', ch', q') ->
  CommandHandler.sending_message ch = false ->
  CommandHandler.sending_message ch' = true ->
  CommandHandler.confirm ch' = false ->
  (ready_to_send sh' = true /\ pm' = pm /\ sent sh' = sent sh
   /\ (forall now, checkCommand now pm' sh' ch' = (pm', sh', ch')))
  /\ (forall now pm1 sh1 ch1 ka data,
        CommandHandler.confirm ch1 = false ->
        ready_to_send sh1 = true ->
        validate ka = ValidFrame FRAME_TYPE_KEEPALIVE data ->
        (CommandHandler.keep_alive_count ch1 <> 1%Z ->
         parseBuffer now pm1 (with_frame ka sh1) ch1
         = (pm1, reset (with_frame ka sh1), CommandHandler.set_keep_alive_count 1 ch1)
         /\ sent (reset (with_frame ka sh1)) = sent sh1
         /\ ready_to_send (reset (with_frame ka sh1)) = true)
        /\ (CommandHandler.keep_alive_count ch1 = 1%Z ->
            exists sh2,
              parseBuffer now pm1 (with_frame ka sh1) ch1
              = (pm1, sh2, CommandHandler.set_sending_message false ch1)
              /\ sent sh2 = sent sh1 ++ [CommandHandler.full_command ch1]
              /\ ready_to_send sh2 = false
              /\ (forall now',
                    checkCommand now' pm1 sh2 (CommandHandler.set_sending_message false ch1)
                    = (pm1, sh2, CommandHandler.set_sending_message false ch1))
              /\ (forall now' pm3 frame,
                    sent (snd (fst (parseBuffer now' pm3 (with_frame frame sh2)
                                      (CommandHandler.set_sending_message false ch1))))
                    = sent sh2))).
Proof.
  intros G S S' C. split.
  - destruct (getCommand_cases _ _ _ _ G) as [(_ & _ & E)|[(id & _ & _ & _ & E)|(id & -> & -> & E)]].
    + subst ch'. congruence.
    + subst ch'. discriminate C.
    + repeat split; try (now destruct sh).
      intros now. apply checkCommand_ready. now destruct sh.
  - intros now pm1 sh1 ch1 ka data C1 R1 V.
    assert (P : parseBuffer now pm1 (with_frame ka sh1) ch1 =
                if (CommandHandler.keep_alive_count ch1 =? 1)%Z then
                  (pm1,
                   reset (set_ready_to_send false
                            (send (CommandHandler.full_command ch1) (with_frame ka sh1))),
                   CommandHandler.set_sending_message false ch1)
                else (pm1, reset (with_frame ka sh1),
                      CommandHandler.set_keep_alive_count 1 ch1)).
    { rewrite (@parseBuffer_keepalive _ now pm1 (with_frame ka sh1) ch1
                 FRAME_TYPE_KEEPALIVE data eq_refl V (bytes_eqb_refl _)).
      rewrite C1. destruct sh1; cbn in *. now rewrite R1. }
    split.
    + intros K. apply Z.eqb_neq in K. rewrite K in P.
      split; [exact P|]. now destruct sh1.
    + intros K. rewrite K in P. cbn [Z.eqb Pos.eqb] in P.
      eexists. split; [exact P|].
      split; [now destruct sh1|]. split; [now destruct sh1|]. split.
      * intros now'. apply checkCommand_idle. now destruct ch1.
      * intros now' pm3 frame. rewrite parseBuffer_not_ready; now destruct sh1.
Qed.

End Handshake.

(** ** The retry bound *)

Section Retry.

Context `{Collaborators}.

(** The framer neither sends nor touches the ready flag. *)
Lemma readSerialBus_keeps (sh sh' : SerialHandler.t) :
  readSerialBus sh = Some sh' ->
  sent sh' = sent sh /\ ready_to_send sh' = ready_to_send sh.
Proof.
  unfold readSerialBus, read, in_waiting.
  destruct sh as [p buf full seek rdy out]; simpl.
  destruct p as [|a p]; simpl.
  { now intros [= <-]. }
  destruct full; simpl.
  { now intros [= <-]. }
  destruct seek; simpl.
  - destruct (bytes_eqb [a] DLE); simpl.
    + destruct p as [|b p]; simpl.
      * now intros [= <-].
      * destruct (bytes_eqb [b] STX); now intros [= <-].
    + now intros [= <-].
  - destruct (bytes_eqb [a] ETX); simpl.
    + destruct (index_from_end (buf ++ [a]) 2) as [z|]; [|discriminate].
      destruct (z =? int_from_bytes DLE)%Z; now intros [= <-].
    + now intros [= <-].
Qed.

(** The four ways [checkCommand] can end. *)
Lemma checkCommand_cases now pm sh ch pm' sh' ch' :
  checkCommand now pm sh ch = (pm', sh', ch') ->
  (pm' = pm /\ sh' = sh /\ ch' = ch)
  \/ (target_reached pm ch = true
      /\ CommandHandler.sending_message ch = true
      /\ ready_to_send sh = false)
  \/ (target_reached pm ch = false
      /\ CommandHandler.sending_message ch = true
      /\ ready_to_send sh = false
      /\ exists n,
           CommandHandler.attempts_remaining ch = S n
           /\ CommandHandler.attempts_remaining ch' = n
           /\ CommandHandler.sending_message ch' = true
           /\ ready_to_send sh' = true)
  \/ (target_reached pm ch = false
      /\ CommandHandler.sending_message ch = true
      /\ ready_to_send sh = false
      /\ CommandHandler.attempts_remaining ch = O
      /\ CommandHandler.sending_message ch' = false
      /\ sh' = sh).
Proof.
  unfold checkCommand, target_reached.
  destruct (CommandHandler.sending_message ch) eqn:S; cbn [negb].
  2:{ intros [= <- <- <-]. now left. }
  destruct (ready_to_send sh) eqn:R.
  { intros [= <- <- <-]. now left. }
  destruct (_ >=? _)%Z.
  2:{ intros [= <- <- <-]. now left. }
  destruct (String.eqb _ _).
  { intros _. right. left. now repeat split. }
  unfold CommandHandler.sendAttemptsRemain.
  destruct (CommandHandler.attempts_remaining ch) as [|n] eqn:A.
  - intros [= <- <- <-]. right. right. right. now repeat split.
  - intros [= <- <- <-]. right. right. left. repeat split; auto.
    exists n. now repeat split.
Qed.

(** One pass of the loop keeps the books, as long as the target state is
    not seen. *)
Lemma loop_body_account base N tk w w' pm :
  CommandHandler.confirm (commandHandler w) = true ->
  queue_empty (command_queue w) = true ->
  attempts_account base N w ->
  observed_model tk w = Some pm ->
  target_reached pm (commandHandler w) = false ->
  loop_body tk w = Some w' ->
  CommandHandler.confirm (commandHandler w') = true
  /\ queue_empty (command_queue w') = true
  /\ CommandHandler.full_command (commandHandler w')
     = CommandHandler.full_command (commandHandler w)
  /\ attempts_account base N w'.
Proof.
  intros C Q (k & Hs & A) O T L.
  unfold observed_model in O. unfold loop_body in L.
  destruct (readSerialBus (receive (arrived tk) (serialHandler w))) as [sh1|] eqn:R;
    [|discriminate].
  apply readSerialBus_keeps in R as [Rs Rr]. cbn in Rs, Rr.
  destruct (parseBuffer (clock_parse tk) (poolModel w) sh1 (commandHandler w))
    as [[pm2 sh2] ch2] eqn:P.
  injection O as ->.
  destruct (checkCommand (clock_check tk) pm sh2 ch2) as [[pm3 sh3] ch3] eqn:K.
  destruct (sendModel pm3 (emitted w)) as [pm4 n4].
  rewrite (getCommand_no_text pm4 sh3 ch3 _ Q) in L.
  injection L as <-. cbn [commandHandler serialHandler command_queue].
  pose proof (checkCommand_keeps _ _ _ _ K) as (_ & _ & Kc & Kf & _ & Ks & _).
  apply parseBuffer_cases in P as (Pp & Pt & Pc & Pf & Pa & _ & Pcase).
  assert (T2 : target_reached pm ch2 = false).
  { unfold target_reached in *. now rewrite Pp, Pt. }
  split; [congruence|]. split; [exact Q|]. split; [congruence|].
  unfold attempts_account. cbn [commandHandler serialHandler].
  rewrite Kf, Pf, Ks.
  apply checkCommand_cases in K.
  destruct Pcase as [(Ps & Pr & Pm)|(Pr & _ & _ & _ & Ps & Pr2 & Pm)].
  - (* nothing sent in this pass *)
    exists k. split; [congruence|].
    destruct K as [(_ & -> & ->)|[(T' & _)|[(_ & S2 & R2 & n & A1 & A2 & S3 & R3)|(_ & S2 & R2 & A1 & S3 & ->)]]].
    + rewrite Pr, Pm, Pa, Rr. exact A.
    + congruence.
    + left. split; [exact S3|]. rewrite R3, A2.
      destruct A as [(_ & A)|(A & _)]; [|congruence].
      rewrite <- Rr, <- Pr, R2, <- Pa, A1 in A. lia.
    + right. rewrite R2. repeat split; auto.
      destruct A as [(_ & A)|(A & _)]; [|congruence].
      rewrite <- Rr, <- Pr, R2, <- Pa, A1 in A. lia.
  - (* the command goes out once *)
    rewrite C in Pm. cbn in Pm.
    destruct A as [(S1 & A)|(_ & A & _)]; [|congruence].
    rewrite <- Rr, Pr in A.
    exists (S k). split.
    { rewrite Ps, Rs, Hs, <- app_assoc. f_equal.
      cbn [repeat]. now rewrite repeat_cons. }
    destruct K as [(_ & -> & ->)|[(T' & _)|[(_ & S2 & R2 & n & A1 & A2 & S3 & R3)|(_ & S2 & R2 & A1 & S3 & ->)]]].
    + left. rewrite Pm, S1, Pr2, Pa. split; [reflexivity|lia].
    + congruence.
    + left. split; [exact S3|]. rewrite R3, A2. rewrite <- Pa, A1 in A. lia.
    + right. rewrite Pr2. repeat split; auto. rewrite <- Pa, A1 in A. lia.
Qed.

Lemma loop_body_observed tk w w' :
  loop_body tk w = Some w' -> exists pm, observed_model tk w = Some pm.
Proof.
  unfold loop_body, observed_model.
  destruct (readSerialBus _); [|discriminate].
  destruct (parseBuffer _ _ _ _) as [[pm2 sh2] ch2]. intros _. now exists pm2.
Qed.

(** The books are kept over a whole run. *)
Lemma run_account base N ticks : forall w w',
  CommandHandler.confirm (commandHandler w) = true ->
  queue_empty (command_queue w) = true ->
  attempts_account base N w ->
  never_reaches_target ticks w = true ->
  run ticks w = Some w' ->
  CommandHandler.full_command (commandHandler w')
  = CommandHandler.full_command (commandHandler w)
  /\ attempts_account base N w'.
Proof.
  induction ticks as [|tk ticks IH]; intros w w' C Q I NT RUN.
  - injection RUN as <-. now split.
  - cbn [run] in RUN. cbn [never_reaches_target] in NT.
    destruct (loop_body tk w) as [w1|] eqn:L; [|discriminate].
    destruct (loop_body_observed _ _ L) as [pm O]. rewrite O in NT.
    apply andb_prop in NT as [T NT]. apply negb_true_iff in T.
    destruct (loop_body_account _ C Q I O T L) as (C1 & Q1 & F1 & I1).
    destruct (IH w1 w' C1 Q1 I1 NT RUN) as [F2 I2].
    split; [congruence|exact I2].
Qed.

(** *** The loop does not raise *)

Lemma framed_same_buffer (sh sh' : SerialHandler.t) :
  buffer sh' = buffer sh ->
  buffer_full sh' = buffer_full sh ->
  looking_for_start sh' = looking_for_start sh ->
  framed sh -> framed sh'.
Proof. unfold framed. intros -> -> ->. auto. Qed.

Lemma parseBuffer_framed now pm sh ch pm' sh' ch' :
  parseBuffer now pm sh ch = (pm', sh', ch') -> framed sh -> framed sh'.
Proof.
  unfold parseBuffer. intros P F.
  destruct (buffer_full sh).
  2:{ now injection P as <- <- <-. }
  destruct (validate (buffer sh)) as [r|ty data].
  { injection P as <- <- <-. apply framed_reset. }
  destruct (bytes_eqb ty FRAME_TYPE_KEEPALIVE).
  2:{ injection P as <- <- <-. apply framed_reset. }
  destruct (ready_to_send sh).
  2:{ injection P as <- <- <-. apply framed_reset. }
  destruct (CommandHandler.keep_alive_count ch =? 1)%Z;
    injection P as <- <- <-; apply framed_reset.
Qed.

Lemma queue_empty_readable (q : option string) :
  queue_empty q = true -> queue_readable q = true.
Proof.
  destruct q as [content|]; [|reflexivity]. cbn. now intros ->.
Qed.

(** On a queue file that can be read [getCommand] does not raise, and it
    leaves a queue file that can be read. *)
Lemma getCommand_readable pm sh ch q :
  queue_readable q = true ->
  exists pm' sh' ch' q',
    getCommand pm sh ch q = Some (pm', sh', ch', q')
    /\ queue_readable q' = true.
Proof.
  intros Q. unfold getCommand.
  destruct (CommandHandler.sending_message ch).
  { now exists pm, sh, ch, q. }
  destruct q as [content|].
  2:{ now exists pm, sh, ch, None. }
  cbn in Q.
  destruct (String.length content =? 0)%nat eqn:L.
  { exists pm, sh, ch, (Some content). split; [reflexivity|]. cbn. now rewrite L. }
  cbn in Q. destruct (decode content) as [text|] eqn:D; [|discriminate].
  assert (Kept : queue_readable (Some content) = true).
  { cbn. now rewrite L, D. }
  destruct (List.length _ =? 2)%nat.
  2:{ now exists pm, sh, ch, (Some EmptyString). }
  destruct (py_int _) as [v|].
  2:{ now exists pm, sh, ch, (Some EmptyString). }
  destruct (negb _).
  { now exists pm, sh, ch, (Some EmptyString). }
  destruct (_ || _)%bool.
  - destruct (String.eqb _ "INIT").
    + now exists pm, sh, ch, (Some content).
    + do 4 eexists. split; reflexivity.
  - destruct (key_in _ buttons_menu); do 4 eexists; split; reflexivity.
Qed.

(** From a buffer of the framer's shape and a queue file that can be read,
    a pass of the loop ends without an exception and leaves both so. *)
Lemma loop_body_framed tk w :
  framed (serialHandler w) ->
  queue_readable (command_queue w) = true ->
  exists w',
    loop_body tk w = Some w'
    /\ framed (serialHandler w')
    /\ queue_readable (command_queue w') = true.
Proof.
  intros F Q. unfold loop_body.
  destruct (readSerialBus_framed (framed_receive (arrived tk) F)) as (sh1 & -> & F1).
  destruct (parseBuffer _ _ _ _) as [[pm2 sh2] ch2] eqn:P.
  apply parseBuffer_framed in P; [|exact F1].
  destruct (checkCommand _ _ _ _) as [[pm3 sh3] ch3] eqn:K.
  apply checkCommand_keeps in K as (_ & _ & _ & _ & _ & _ & _ & Kb & Kf & Kl).
  pose proof (@framed_same_buffer sh2 sh3 Kb Kf Kl P) as F3.
  destruct (sendModel _ _) as [pm4 n4].
  destruct (getCommand_readable pm4 sh3 ch3 _ Q) as (pm5 & sh5 & ch5 & q5 & G & Q5).
  rewrite G.
  eexists. split; [reflexivity|]. cbn [serialHandler command_queue].
  split; [|exact Q5].
  destruct (getCommand_cases _ _ _ _ G) as [(_ & -> & _)|[(id & _ & _ & -> & _)|(id & _ & -> & _)]];
    auto.
Qed.

Lemma run_framed ticks : forall w,
  framed (serialHandler w) ->
  queue_readable (command_queue w) = true ->
  exists w', run ticks w = Some w' /\ framed (serialHandler w').
Proof.
  induction ticks as [|tk ticks IH]; intros w F Q.
  - now exists w.
  - destruct (@loop_body_framed tk w F Q) as (w1 & L & F1 & Q1).
    cbn [run]. rewrite L. now apply IH.
Qed.

(** C9.  A command that needs confirmation and is allowed [N] attempts,
    whose target parameter is never seen in the target state, is sent at
    most [N] times over any run of the loop, every frame sent being the
    command; and when the handler has dropped it, it has been sent exactly
    [N] times.  The run itself never ends in an exception. *)
Theorem retry_bound (N : nat) (ticks : list Tick) (w : World) :
  framed (serialHandler w) ->
  CommandHandler.sending_message (commandHandler w) = true ->
  CommandHandler.confirm (commandHandler w) = true ->
  ready_to_send (serialHandler w) = false ->
  CommandHandler.attempts_remaining (commandHandler w) = N ->
  queue_empty (command_queue w) = true ->
  never_reaches_target ticks w = true ->
  exists w' k,
    run ticks w = Some w'
    /\ sent (serialHandler w') =
       sent (serialHandler w) ++ repeat (CommandHandler.full_command (commandHandler w)) k
    /\ transmissions w' = (transmissions w + k)%nat
    /\ (k <= N)%nat
    /\ (CommandHandler.sending_message (commandHandler w') = false -> k = N).
Proof.
  intros Fr S C R A Q NT.
  destruct (@run_framed ticks w Fr (queue_empty_readable _ Q)) as (w' & RUN & _).
  assert (I : attempts_account (sent (serialHandler w)) N w).
  { exists 0%nat. cbn [repeat]. rewrite app_nil_r. split; [reflexivity|].
    left. rewrite R. split; [exact S|lia]. }
  destruct (@run_account (sent (serialHandler w)) N ticks w w' C Q I NT RUN)
    as (F & k & Hs & Hk).
  exists w', k. split; [exact RUN|]. rewrite <- F. split; [exact Hs|]. split.
  { unfold transmissions. now rewrite Hs, length_app, repeat_length. }
  destruct Hk as [(Hf & Hk)|(_ & _ & Hk)].
  - split; [lia|]. intros D. congruence.
  - split; [lia|]. now intros _.
Qed.

End Retry.

(** ** The keep-alive rule *)

Section Heartbeat.

Context `{Collaborators}.

(** Armed with the count at zero, a command is not sent on the first
    keep-alive, which puts the count to one, and is sent on the keep-alive
    that comes next. *)
Lemma keepalive_pair now pm sh ch ty data :
  buffer_full sh = true ->
  validate (buffer sh) = ValidFrame ty data ->
  bytes_eqb ty FRAME_TYPE_KEEPALIVE = true ->
  ready_to_send sh = true ->
  (CommandHandler.keep_alive_count ch = 0%Z ->
   parseBuffer now pm sh ch = (pm, reset sh, CommandHandler.set_keep_alive_count 1 ch))
  /\ (CommandHandler.keep_alive_count ch = 1%Z ->
      sent (snd (fst (parseBuffer now pm sh ch)))
      = sent sh ++ [CommandHandler.full_command ch]).
Proof.
  intros F V K R.
  rewrite (parseBuffer_keepalive now pm sh ch F V K), R.
  split; intros ->; cbn; [reflexivity|]. now destruct sh.
Qed.

(** The pass that sends a command leaves the count at one.  When
    [checkCommand] arms the next attempt in that same pass, the command is
    ready to send with the count at one, and the first keep-alive that
    follows sends it again. *)
Lemma rearm_in_sending_pass now now' pm sh ch ty data n :
  buffer_full sh = true ->
  validate (buffer sh) = ValidFrame ty data ->
  bytes_eqb ty FRAME_TYPE_KEEPALIVE = true ->
  ready_to_send sh = true ->
  CommandHandler.keep_alive_count ch = 1%Z ->
  CommandHandler.sending_message ch = true ->
  CommandHandler.confirm ch = true ->
  (PoolModel.timestamp pm >= CommandHandler.last_model_timestamp_seen ch)%Z ->
  target_reached pm ch = false ->
  CommandHandler.attempts_remaining ch = S n ->
  exists sh' ch',
    (let '(pm1, sh1, ch1) := parseBuffer now pm sh ch in
     checkCommand now' pm1 sh1 ch1) = (pm, sh', ch')
    /\ sent sh' = sent sh ++ [CommandHandler.full_command ch]
    /\ ready_to_send sh' = true
    /\ CommandHandler.keep_alive_count ch' = 1%Z.
Proof.
  intros F V K R C S Cf G T A.
  rewrite (parseBuffer_keepalive now pm sh ch F V K), R, C, Cf. cbn [Z.eqb Pos.eqb negb].
  rewrite checkCommand_at_or_after_mark; auto.
  rewrite T, A. do 2 eexists. split; [reflexivity|].
  destruct sh, ch; cbn in *. now subst.
Qed.

End Heartbeat.

(** * The functions at work on the sample installation *)

(** C1, the code at the failing input.  A toggle of [pool] is in flight.
    An update arms it, and a second update arrives before it is sent.  It
    is not sent on the first keep-alive and is sent on the second; in that
    same pass [checkCommand] arms the retry, and the third keep-alive, the
    first one after that arming, sends the command a second time. *)
Theorem keepalive_after_rearm_sends :
  option_map snapshot
    (run (H:=Sample.installation) Sample.armed_then_updated Sample.toggle_accepted)
  = Some (0%nat, true, 0%Z)
  /\ option_map snapshot
       (run (H:=Sample.installation) Sample.first_keepalive Sample.toggle_accepted)
     = Some (0%nat, true, 1%Z)
  /\ option_map snapshot
       (run (H:=Sample.installation) Sample.second_keepalive Sample.toggle_accepted)
     = Some (1%nat, true, 1%Z)
  /\ option_map snapshot
       (run (H:=Sample.installation) Sample.third_keepalive Sample.toggle_accepted)
     = Some (2%nat, false, 1%Z).
Proof. repeat split; vm_compute; reflexivity. Qed.

(** A frame whose data holds 0x10 0x03 behind the stuffing is rejected as
    [SpuriousDelimiter] and the framer is reset. *)
Lemma parseBuffer_rejects_witness :
  validate (H:=Sample.installation) (buffer Sample.stuffed_etx_port)
  = Rejected SpuriousDelimiter
  /\ parseBuffer (H:=Sample.installation) 5 (Sample.model "OFF" 0 1)
       Sample.stuffed_etx_port (Sample.toggle_in_flight 1 0 1)
     = (Sample.model "OFF" 0 1, reset Sample.stuffed_etx_port,
        Sample.toggle_in_flight 1 0 1).
Proof.
  destruct (@parseBuffer_rejects Sample.installation 5 (Sample.model "OFF" 0 1)
              Sample.stuffed_etx_port (Sample.toggle_in_flight 1 0 1)
              x10 x02 [x01; x02; x10; x03; x00; x28] x10 x03 eq_refl eq_refl)
    as (spurious & _ & resets).
  assert (V : validate (H:=Sample.installation) (buffer Sample.stuffed_etx_port)
              = Rejected SpuriousDelimiter).
  { apply spurious. right. exists [x01; x02], [x00; x28]. reflexivity. }
  split; [exact V|]. exact (proj1 (resets _ V)).
Defined.

(** A keep-alive with a wrong checksum, arriving when the count is at one
    and a command is ready, changes neither. *)
Lemma rejected_frame_keeps_handshake_witness :
  exists sh',
    parseBuffer (H:=Sample.installation) 5 (Sample.model "OFF" 0 1)
      Sample.damaged_port (Sample.toggle_in_flight 1 0 1)
    = (Sample.model "OFF" 0 1, sh', Sample.toggle_in_flight 1 0 1)
    /\ sh' = reset Sample.damaged_port
    /\ sent sh' = sent Sample.damaged_port
    /\ ready_to_send sh' = ready_to_send Sample.damaged_port
    /\ pending sh' = pending Sample.damaged_port.
Proof.
  exact (proj1 (@rejected_frame_keeps_handshake Sample.installation 5
                  (Sample.model "OFF" 0 1) Sample.damaged_port
                  (Sample.toggle_in_flight 1 0 1) ChecksumMismatch eq_refl eq_refl)).
Defined.

(** [service] is ON when the toggle is accepted: the target is BLINK. *)
Lemma getCommand_fixes_target_witness :
  CommandHandler.target_state
    (initiateSend (H:=Sample.installation) "service" "BLINK" true Sample.idle_handler)
  = "BLINK"%string.
Proof.
  destruct (@getCommand_fixes_target Sample.installation
              (Sample.model "ON" 0 1) Sample.idle_port Sample.idle_handler
              (Some "service,1"%string)
              (PoolModel.set_sending_message true (Sample.model "ON" 0 1))
              Sample.idle_port
              (initiateSend (H:=Sample.installation) "service" "BLINK" true
                 Sample.idle_handler)
              (Some EmptyString)
              eq_refl eq_refl eq_refl eq_refl)
    as (_ & service & _).
  exact (proj1 (service eq_refl) eq_refl).
Defined.

(** A menu button is accepted with the count at zero: it is ready when
    [getCommand] returns, the first keep-alive sends nothing, the second
    sends it, and the handler is idle. *)
Lemma getCommand_fire_and_forget_witness :
  getCommand (H:=Sample.installation) (Sample.model "ON" 0 1) Sample.idle_port
    Sample.idle_handler (Some "menu,1"%string)
  = Some (Sample.model "ON" 0 1, Cases.menu_port, Cases.menu_handler, Some EmptyString)
  /\ ready_to_send Cases.menu_port = true
  /\ parseBuffer (H:=Sample.installation) 1 (Sample.model "ON" 0 1)
       (with_frame Sample.keepalive_frame Cases.menu_port) Cases.menu_handler
     = (Sample.model "ON" 0 1, SerialHandler.mk [] [] false true true [],
        CommandHandler.set_keep_alive_count 1 Cases.menu_handler)
  /\ parseBuffer (H:=Sample.installation) 2 (Sample.model "ON" 0 1)
       (with_frame Sample.keepalive_frame (SerialHandler.mk [] [] false true true []))
       (CommandHandler.set_keep_alive_count 1 Cases.menu_handler)
     = (Sample.model "ON" 0 1,
        SerialHandler.mk [] [] false true false [Sample.press_frame],
        CommandHandler.set_sending_message false
          (CommandHandler.set_keep_alive_count 1 Cases.menu_handler)).
Proof.
  destruct (@getCommand_fire_and_forget Sample.installation
              (Sample.model "ON" 0 1) Sample.idle_port Sample.idle_handler
              (Some "menu,1"%string)
              (Sample.model "ON" 0 1) Cases.menu_port Cases.menu_handler
              (Some EmptyString)
              eq_refl eq_refl eq_refl eq_refl)
    as ((Ready & _) & Rule).
  split; [reflexivity|]. split; [exact Ready|]. split.
  - destruct (Rule 1%Z (Sample.model "ON" 0 1) Cases.menu_port Cases.menu_handler
                Sample.keepalive_frame [] eq_refl eq_refl eq_refl) as [First _].
    exact (proj1 (First ltac:(discriminate))).
  - destruct (Rule 2%Z (Sample.model "ON" 0 1)
                (SerialHandler.mk [] [] false true true [])
                (CommandHandler.set_keep_alive_count 1 Cases.menu_handler)
                Sample.keepalive_frame [] eq_refl eq_refl eq_refl) as [_ Second].
    destruct (Second eq_refl) as (sh2 & P & _).
    rewrite P. vm_compute in P. injection P as <-. reflexivity.
Defined.

(** C4, as stated, fails: an accepted command that needs no confirmation
    is not sent on the keep-alive that follows its acceptance; it waits for
    a second keep-alive like every command. *)
Lemma fire_and_forget_no_wait_counterexample :
  ~ (forall pm sh ch q pm' sh' ch' q' now ka data,
        getCommand (H:=Sample.installation) pm sh ch q = Some (pm', sh', ch', q') ->
        CommandHandler.sending_message ch = false ->
        CommandHandler.sending_message ch' = true ->
        CommandHandler.confirm ch' = false ->
        validate (H:=Sample.installation) ka = ValidFrame [x01; x01] data ->
        sent (snd (fst (parseBuffer (H:=Sample.installation) now pm'
                          (with_frame ka sh') ch')))
        = sent sh' ++ [CommandHandler.full_command ch']).
Proof.
  intros claim.
  specialize (claim (Sample.model "ON" 0 1) Sample.idle_port Sample.idle_handler
                    (Some "menu,1"%string)
                    (Sample.model "ON" 0 1)
                    (set_ready_to_send true Sample.idle_port)
                    (initiateSend (H:=Sample.installation) "menu" "NA" false
                       Sample.idle_handler)
                    (Some EmptyString) 1%Z Sample.keepalive_frame []
                    eq_refl eq_refl eq_refl eq_refl eq_refl).
  vm_compute in claim. discriminate claim.
Qed.

(** Allowed two attempts and never confirmed, the toggle is sent twice and
    then dropped, however many keep-alives follow. *)
Lemma retry_bound_witness :
  exists w',
    run (H:=Sample.installation) Sample.three_rounds Sample.toggle_accepted = Some w'
    /\ CommandHandler.sending_message (commandHandler w') = false
    /\ sent (serialHandler w') = [Sample.press_frame; Sample.press_frame]
    /\ transmissions w' = 2%nat.
Proof.
  destruct (@retry_bound Sample.installation 2 Sample.three_rounds
              Sample.toggle_accepted
              ltac:(split; discriminate)
              eq_refl eq_refl eq_refl eq_refl eq_refl
              ltac:(vm_compute; reflexivity))
    as (w' & k & R & Hs & Ht & _ & Hk).
  assert (D : CommandHandler.sending_message (commandHandler w') = false).
  { assert (R' := R). vm_compute in R'. injection R' as <-. reflexivity. }
  rewrite (Hk D) in Hs, Ht.
  exists w'. repeat split; assumption.
Defined.

(** * Further properties of the code *)

(** ** The framer on a stream of bytes *)

Section FramerStream.

Lemma index_from_end_last (buf : bytes) (a : byte) :
  buf <> [] ->
  index_from_end (buf ++ [a]) 2 = Some (int_of_byte (last buf x00)).
Proof.
  intros N. destruct (exists_last N) as (b & x & ->).
  now rewrite index_from_end_snoc, last_last.
Qed.

Lemma int_of_byte_inj_DLE (x : byte) :
  (int_of_byte x =? int_from_bytes DLE)%Z = true -> x = x10.
Proof. intros E. apply Z.eqb_eq in E. now apply int_of_byte_DLE. Qed.

Lemma calls_add (n m : nat) : forall sh,
  calls (n + m) sh =
  match calls n sh with
  | Some sh' => calls m sh'
  | None => None
  end.
Proof.
  induction n as [|n IH]; intros sh; cbn; [reflexivity|].
  destruct (readSerialBus sh); [apply IH|reflexivity].
Qed.

(** While a frame is accumulated, the bytes that do not complete a DLE ETX
    are appended one per call. *)
Lemma calls_accumulate (rest : bytes) : forall (bs buf : bytes) (sh : SerialHandler.t),
  looking_for_start sh = false ->
  buffer_full sh = false ->
  buffer sh = buf ->
  buf <> [] ->
  pending sh = bs ++ rest ->
  bytes_in [x10; x03] (last buf x00 :: bs) = false ->
  calls (List.length bs) sh = Some (set_buffer (buf ++ bs) (set_pending rest sh)).
Proof.
  induction bs as [|a bs IH]; intros buf sh L F B N P E.
  - cbn. rewrite app_nil_r. destruct sh; cbn in *. now subst.
  - cbn [List.length calls].
    assert (Step : readSerialBus sh
                   = Some (set_buffer (buf ++ [a]) (set_pending (bs ++ rest) sh))).
    { unfold readSerialBus, read, in_waiting.
      destruct sh as [p b full seek rdy out]; cbn in *. subst.
      cbn. destruct (bytes_eqb [a] ETX) eqn:Ea; [|reflexivity].
      apply bytes_eqb_eq in Ea. injection Ea as ->.
      rewrite (index_from_end_last x03 N).
      destruct (int_of_byte (last buf x00) =? int_from_bytes DLE)%Z eqn:D; [|reflexivity].
      apply int_of_byte_inj_DLE in D. rewrite D in E. discriminate E. }
    rewrite Step.
    rewrite (IH (buf ++ [a])); try (destruct sh; cbn in *; congruence).
    + destruct sh; cbn. now rewrite <- app_assoc.
    + intros C. now apply app_eq_nil in C as [_ C].
    + rewrite last_last. cbn [bytes_in] in E. apply orb_false_iff in E. apply E.
Qed.

(** X1.  The framer assembles a frame: looking for a start, with DLE STX,
    a body, DLE ETX and then anything else on the port, where the body
    followed by DLE holds no DLE ETX, one call per byte after the first
    (which takes DLE STX together) leaves the whole frame in the buffer,
    marked full, the framer looking for a start again, and exactly what
    followed the frame still on the port. *)
Theorem framer_assembles_frame (sh : SerialHandler.t) (body rest : bytes) :
  looking_for_start sh = true ->
  buffer_full sh = false ->
  pending sh = [x10; x02] ++ body ++ [x10; x03] ++ rest ->
  bytes_in [x10; x03] (body ++ [x10]) = false ->
  calls (List.length body + 3) sh
  = Some (SerialHandler.mk rest ([x10; x02] ++ body ++ [x10; x03]) true true
            (ready_to_send sh) (sent sh)).
Proof.
  intros L F P E.
  replace (List.length body + 3)%nat with (S (List.length (body ++ [x10]) + 1))
    by (rewrite length_app; cbn; lia).
  cbn [calls].
  assert (Start : readSerialBus sh
                  = Some (SerialHandler.mk (body ++ [x10; x03] ++ rest) [x10; x02]
                            false false (ready_to_send sh) (sent sh))).
  { unfold readSerialBus, read, in_waiting.
    destruct sh as [p b full seek rdy out]; cbn in *. now subst. }
  rewrite Start. clear Start.
  set (sh1 := SerialHandler.mk (body ++ [x10; x03] ++ rest) [x10; x02] false false
                (ready_to_send sh) (sent sh)).
  assert (Acc : calls (List.length (body ++ [x10])) sh1
                = Some (set_buffer ([x10; x02] ++ body ++ [x10])
                          (set_pending ([x03] ++ rest) sh1))).
  { apply calls_accumulate; try reflexivity; try discriminate.
    - exact (app_assoc body [x10] ([x03] ++ rest)).
    - cbn [last bytes_in is_prefix Byte.eqb].
      change (Byte.eqb x10 x02) with false. cbn [andb orb]. exact E. }
  rewrite calls_add, Acc. subst sh1. cbn.
  unfold readSerialBus, read, in_waiting. cbn.
  change (bytes_eqb [x03] ETX) with true. cbn iota.
  replace (x10 :: x02 :: (body ++ [x10]) ++ [x03])
    with (((x10 :: x02 :: body) ++ [x10]) ++ [x03])
    by (cbn; now rewrite <- !app_assoc).
  rewrite index_from_end_snoc.
  change (int_of_byte x10 =? int_from_bytes DLE)%Z with true. cbn.
  now rewrite <- !app_assoc.
Qed.

Lemma framer_assembles_frame_witness :
  calls 10 (receive (Sample.stuffed_etx_frame ++ [x41]) Sample.idle_port)
  = Some (SerialHandler.mk [x41] Sample.stuffed_etx_frame true true false []).
Proof.
  exact (@framer_assembles_frame
           (receive (Sample.stuffed_etx_frame ++ [x41]) Sample.idle_port)
           [x01; x02; x10; x00; x03; x00; x28] [x41]
           eq_refl eq_refl eq_refl eq_refl).
Defined.

Lemma bytes_eqb_single (a b : byte) : bytes_eqb [a] [b] = Byte.eqb a b.
Proof. cbv [bytes_eqb]. apply andb_true_r. Qed.

(** X2.  Looking for a start, the framer throws away every byte that is
    not DLE, one per call, and changes nothing else: after as many calls as
    there are such bytes, what followed them is next on the port. *)
Theorem framer_skips_garbage (rest : bytes) : forall (garbage : bytes) (sh : SerialHandler.t),
  looking_for_start sh = true ->
  buffer_full sh = false ->
  pending sh = garbage ++ rest ->
  forallb (fun b => negb (Byte.eqb b x10)) garbage = true ->
  calls (List.length garbage) sh = Some (set_pending rest sh).
Proof.
  induction garbage as [|a g IH]; intros sh L F P G.
  - cbn in *. destruct sh; cbn in *. now subst.
  - cbn [forallb] in G. apply andb_prop in G as [Ga G].
    apply negb_true_iff in Ga.
    cbn [List.length calls].
    assert (Step : readSerialBus sh = Some (set_pending (g ++ rest) sh)).
    { unfold readSerialBus, read, in_waiting.
      destruct sh as [p b full seek rdy out]; cbn in *. subst. cbn.
      unfold DLE. now rewrite bytes_eqb_single, Ga. }
    rewrite Step, IH; auto; destruct sh; reflexivity.
Qed.

Lemma framer_skips_garbage_witness :
  calls 3 (receive [x41; x03; x02; x10; x02] Sample.idle_port)
  = Some (set_pending [x10; x02] (receive [x41; x03; x02; x10; x02] Sample.idle_port)).
Proof.
  exact (@framer_skips_garbage [x10; x02] [x41; x03; x02]
           (receive [x41; x03; x02; x10; x02] Sample.idle_port)
           eq_refl eq_refl eq_refl eq_refl).
Defined.

(** X3.  Looking for a start, a DLE that is not followed by STX is thrown
    away together with the byte after it, in one call.  So when that byte
    is itself the DLE of a real DLE STX, the start is missed: after DLE DLE
    STX the framer is still looking for a start, two calls later, with an
    untouched buffer. *)
Theorem framer_stray_DLE (sh : SerialHandler.t) :
  looking_for_start sh = true ->
  buffer_full sh = false ->
  (forall b rest,
      pending sh = x10 :: b :: rest ->
      b <> x02 ->
      readSerialBus sh = Some (set_pending rest sh))
  /\ (forall rest,
        pending sh = x10 :: x10 :: x02 :: rest ->
        calls 2 sh = Some (set_pending rest sh)).
Proof.
  intros L F.
  assert (One : forall b rest,
             pending sh = x10 :: b :: rest -> b <> x02 ->
             readSerialBus sh = Some (set_pending rest sh)).
  { intros b rest P N. unfold readSerialBus, read, in_waiting.
    destruct sh as [p buf full seek rdy out]; cbn in *. subst. cbn.
    change (bytes_eqb [x10] DLE) with true. cbn iota.
    unfold STX. rewrite bytes_eqb_single.
    destruct (Byte.eqb b x02) eqn:E; [|reflexivity].
    apply Byte.byte_dec_bl in E. contradiction. }
  split; [exact One|].
  intros rest P. cbn [calls].
  rewrite (One x10 (x02 :: rest) P) by discriminate.
  unfold readSerialBus, read, in_waiting.
  destruct sh as [p buf full seek rdy out]; cbn in *. subst. reflexivity.
Qed.

Lemma framer_stray_DLE_witness :
  calls 2 (receive [x10; x10; x02; x01; x01] Sample.idle_port)
  = Some (set_pending [x01; x01] (receive [x10; x10; x02; x01; x01] Sample.idle_port)).
Proof.
  exact (proj2 (@framer_stray_DLE (receive [x10; x10; x02; x01; x01] Sample.idle_port)
                  eq_refl eq_refl) [x01; x01] eq_refl).
Defined.

End FramerStream.

(** ** Validation of stuffed frames *)

Section StuffedFrames.

Context `{Collaborators}.

Lemma destuff_stuff_app (b t : bytes) : destuff (stuff b ++ t) = b ++ destuff t.
Proof.
  induction b as [|x b IH]; [reflexivity|].
  cbn [stuff]. destruct (Byte.eqb x x10) eqn:E.
  - apply Byte.byte_dec_bl in E. subst x.
    cbn [app destuff]. change (Byte.eqb x10 x10) with true.
    change (Byte.eqb x00 x00) with true. cbn iota. now rewrite IH.
  - cbn [app destuff]. rewrite E. now rewrite IH.
Qed.

Lemma destuff_stuffed_frame (content : bytes) :
  destuff ([x10; x02] ++ stuff content ++ [x10; x03])
  = [x10; x02] ++ content ++ [x10; x03].
Proof.
  cbn [app destuff]. change (Byte.eqb x10 x10) with true.
  change (Byte.eqb x02 x00) with false. change (Byte.eqb x02 x10) with false.
  cbn iota. now rewrite destuff_stuff_app.
Qed.

(** X4.  Stuffing does not protect a DLE that is followed by STX or ETX: a
    frame whose content, before stuffing, holds 0x10 0x02 or 0x10 0x03 is
    rejected as [SpuriousDelimiter] although it is stuffed as the protocol
    asks, because the delimiter test runs on the destuffed frame. *)
Theorem stuffed_delimiter_rejected (content : bytes) :
  (exists pre post, content = pre ++ [x10; x02] ++ post)
  \/ (exists pre post, content = pre ++ [x10; x03] ++ post) ->
  validate ([x10; x02] ++ stuff content ++ [x10; x03]) = Rejected SpuriousDelimiter.
Proof.
  intros C. unfold validate.
  rewrite destuff_stuffed_frame, slice_to_end_inner.
  destruct C as [C|C]; apply bytes_in_spec in C; rewrite C.
  - reflexivity.
  - now destruct (bytes_in [x10; x02] content).
Qed.

Lemma firstn_exact (data tail : bytes) (n : nat) :
  n = List.length data -> firstn n (data ++ tail) = data.
Proof.
  intros ->. rewrite firstn_app, Nat.sub_diag, firstn_all. apply app_nil_r.
Qed.

(** X5.  The layout of a frame: DLE STX, then the stuffed content made of
    two bytes of type, the data and two bytes of checksum, then DLE ETX.
    When the content holds neither 0x10 0x02 nor 0x10 0x03 and the checksum
    test accepts the destuffed frame, validation returns exactly the type
    and the data that were put in, whatever 0x10 bytes they hold. *)
Theorem validate_frame_layout (ty data cks : bytes) :
  List.length ty = 2%nat ->
  List.length cks = 2%nat ->
  bytes_in [x10; x02] (ty ++ data ++ cks) = false ->
  bytes_in [x10; x03] (ty ++ data ++ cks) = false ->
  confirmChecksum ([x10; x02] ++ (ty ++ data ++ cks) ++ [x10; x03]) = true ->
  validate ([x10; x02] ++ stuff (ty ++ data ++ cks) ++ [x10; x03])
  = ValidFrame ty data.
Proof.
  intros Lt Lc N2 N3 K. unfold validate.
  rewrite destuff_stuffed_frame, slice_to_end_inner, N2, N3, K. cbn [negb].
  destruct ty as [|t0 [|t1 [|? ?]]]; try discriminate Lt.
  destruct cks as [|c0 [|c1 [|? ?]]]; try discriminate Lc.
  f_equal.
  unfold slice_to_end. cbn [app skipn List.length].
  rewrite <- app_assoc. apply firstn_exact.
  rewrite length_app. cbn [List.length app]. lia.
Qed.

End StuffedFrames.

(** The stuffed frame of the sample, whose data holds 0x10 0x03. *)
Lemma stuffed_delimiter_rejected_witness :
  validate (H:=Sample.installation) Sample.stuffed_etx_frame
  = Rejected SpuriousDelimiter.
Proof.
  apply (@stuffed_delimiter_rejected Sample.installation
           [x01; x02; x10; x03; x00; x28]).
  right. exists [x01; x02], [x00; x28]. reflexivity.
Defined.

(** A display frame of the sample whose data holds two 0x10 bytes. *)
Lemma validate_frame_layout_witness :
  validate (H:=Sample.installation)
    [x10; x02; x01; x03; x10; x00; x41; x10; x00; x00; x77; x10; x03]
  = ValidFrame [x01; x03] [x10; x41; x10].
Proof.
  exact (@validate_frame_layout Sample.installation
           [x01; x03] [x10; x41; x10] [x00; x77]
           eq_refl eq_refl eq_refl eq_refl eq_refl).
Defined.

(** ** What the loop keeps *)

Section LoopInvariants.

Context `{Collaborators}.

(** X6.  [parseBuffer] writes to the bus in one situation only: the buffer
    holds a complete frame that passes validation, its type is the
    keep-alive type, the ready flag is up and the count is at one.  What it
    writes is then the stored command, once, and the model is not touched.
    A rejected frame, a frame of another type or an incomplete buffer
    never triggers a transmission. *)
Theorem parseBuffer_sends_only_on_keepalive now pm sh ch pm' sh' ch' :
  parseBuffer now pm sh ch = (pm', sh', ch') ->
  sent sh' <> sent sh ->
  buffer_full sh = true
  /\ ready_to_send sh = true
  /\ CommandHandler.keep_alive_count ch = 1%Z
  /\ (exists ty data,
        validate (buffer sh) = ValidFrame ty data
        /\ bytes_eqb ty FRAME_TYPE_KEEPALIVE = true)
  /\ sent sh' = sent sh ++ [CommandHandler.full_command ch]
  /\ pm' = pm.
Proof.
  unfold parseBuffer.
  destruct (buffer_full sh) eqn:F.
  2:{ intros [= <- <- <-] D. contradiction. }
  destruct (validate (buffer sh)) as [r|ty data] eqn:V.
  { intros [= <- <- <-] D. destruct sh; contradiction. }
  destruct (bytes_eqb ty FRAME_TYPE_KEEPALIVE) eqn:K.
  2:{ intros [= <- <- <-] D. destruct sh; contradiction. }
  destruct (ready_to_send sh) eqn:R.
  2:{ intros [= <- <- <-] D. destruct sh; contradiction. }
  destruct (Z.eqb_spec (CommandHandler.keep_alive_count ch) 1) as [C|C].
  2:{ intros [= <- <- <-] D. destruct sh; contradiction. }
  intros [= <- <- <-] _.
  split; [reflexivity|]. split; [reflexivity|]. split; [exact C|].
  split; [now exists ty, data|]. split; [now destruct sh|reflexivity].
Qed.

(** X7.  A frame is parsed in the pass that completes it: at the end of
    every pass of the loop the buffer is not marked full, so the next pass
    always reads from the port. *)
Theorem loop_body_drains_frame tk w w' :
  loop_body tk w = Some w' ->
  buffer_full (serialHandler w') = false.
Proof.
  unfold loop_body.
  destruct (readSerialBus _) as [sh1|]; [|discriminate].
  destruct (parseBuffer _ _ _ _) as [[pm2 sh2] ch2] eqn:P.
  assert (F2 : buffer_full sh2 = false).
  { revert P. unfold parseBuffer.
    destruct (buffer_full sh1) eqn:F.
    2:{ now intros [= <- <- <-]. }
    destruct (validate (buffer sh1)) as [r|ty data].
    { now intros [= <- <- <-]. }
    destruct (bytes_eqb ty FRAME_TYPE_KEEPALIVE).
    2:{ now intros [= <- <- <-]. }
    destruct (ready_to_send sh1).
    2:{ now intros [= <- <- <-]. }
    destruct (CommandHandler.keep_alive_count ch2 =? 1)%Z;
      destruct (CommandHandler.keep_alive_count (commandHandler w) =? 1)%Z;
      now intros [= <- <- <-]. }
  destruct (checkCommand _ _ _ _) as [[pm3 sh3] ch3] eqn:K.
  apply checkCommand_keeps in K as (_ & _ & _ & _ & _ & _ & _ & _ & Kf & _).
  destruct (sendModel _ _) as [pm4 n4].
  destruct (getCommand _ _ _ _) as [[[[pm5 sh5] ch5] q5]|] eqn:G; [|discriminate].
  intros [= <-]. cbn [serialHandler].
  destruct (getCommand_cases _ _ _ _ G) as [(_ & -> & _)|[(id & _ & _ & -> & _)|(id & _ & -> & _)]];
    try congruence.
  destruct sh3; cbn in *. congruence.
Qed.

(** X8.  Started while it looks for a frame start, with a queue file that
    does not exist, is empty or holds bytes that decode, the loop ends in
    neither of the exceptions pool-pi.py can raise itself, the [IndexError]
    of [buffer[-2]] and the [UnicodeDecodeError] of [f.readline()],
    whatever bytes arrive on the bus: every run of passes returns. *)
Theorem run_never_raises ticks w :
  looking_for_start (serialHandler w) = true ->
  buffer_full (serialHandler w) = false ->
  queue_readable (command_queue w) = true ->
  exists w', run ticks w = Some w'.
Proof.
  intros L F Q.
  assert (Fr : framed (serialHandler w)).
  { split; intros E; congruence. }
  destruct (@run_framed _ ticks w Fr Q) as (w' & R & _). now exists w'.
Qed.

End LoopInvariants.

(** A pass that starts with a damaged frame waiting in the buffer. *)
Lemma loop_body_drains_frame_witness :
  exists w',
    loop_body (H:=Sample.installation) (mkTick [x41] 5 6)
      (mkWorld (Sample.model "OFF" 0 1) Sample.damaged_port Sample.idle_handler None 0)
    = Some w'
    /\ buffer_full (serialHandler w') = false.
Proof.
  eexists. split.
  - vm_compute. reflexivity.
  - eapply (@loop_body_drains_frame Sample.installation (mkTick [x41] 5 6)
              (mkWorld (Sample.model "OFF" 0 1) Sample.damaged_port
                 Sample.idle_handler None 0)).
    vm_compute. reflexivity.
Defined.

(** Bytes that end a frame that was never started, and a queue that holds
    no known command: nothing is raised. *)
Lemma run_never_raises_witness :
  exists w',
    run (H:=Sample.installation) (Sample.feed 5 [x41; x10; x03; x03])
      (mkWorld (Sample.model "OFF" 0 1) Sample.idle_port Sample.idle_handler
         (Some "no such command"%string) 0)
    = Some w'.
Proof.
  exact (@run_never_raises Sample.installation (Sample.feed 5 [x41; x10; x03; x03])
           (mkWorld (Sample.model "OFF" 0 1) Sample.idle_port Sample.idle_handler
              (Some "no such command"%string) 0)
           eq_refl eq_refl eq_refl).
Defined.

(** A keep-alive arrives while the toggle is ready and the count is at one. *)
Lemma parseBuffer_sends_only_on_keepalive_witness :
  buffer_full (SerialHandler.mk [] Sample.keepalive_frame true true true []) = true
  /\ ready_to_send (SerialHandler.mk [] Sample.keepalive_frame true true true []) = true
  /\ CommandHandler.keep_alive_count (Sample.toggle_in_flight 1 0 1) = 1%Z
  /\ (exists ty data,
        validate (H:=Sample.installation) Sample.keepalive_frame = ValidFrame ty data
        /\ bytes_eqb ty [x01; x01] = true)
  /\ [Sample.press_frame] = [] ++ [Sample.press_frame]
  /\ Sample.model "OFF" 0 1 = Sample.model "OFF" 0 1.
Proof.
  exact (@parseBuffer_sends_only_on_keepalive Sample.installation 5
           (Sample.model "OFF" 0 1)
           (SerialHandler.mk [] Sample.keepalive_frame true true true [])
           (Sample.toggle_in_flight 1 0 1)
           (Sample.model "OFF" 0 1)
           (SerialHandler.mk [] [] false true false [Sample.press_frame])
           (Sample.toggle_in_flight 1 0 1)
           eq_refl ltac:(discriminate)).
Defined.

(** ** What a run of the loop never does *)

Section LoopSafety.

Context `{Collaborators}.

(** The five calls of one pass. *)
Lemma loop_body_steps tk w w' :
  loop_body tk w = Some w' ->
  exists sh1 pm2 sh2 ch2 pm3 sh3 ch3 pm4,
    readSerialBus (receive (arrived tk) (serialHandler w)) = Some sh1
    /\ parseBuffer (clock_parse tk) (poolModel w) sh1 (commandHandler w) = (pm2, sh2, ch2)
    /\ checkCommand (clock_check tk) pm2 sh2 ch2 = (pm3, sh3, ch3)
    /\ sendModel pm3 (emitted w) = (pm4, emitted w')
    /\ getCommand pm4 sh3 ch3 (command_queue w)
       = Some (poolModel w', serialHandler w', commandHandler w', command_queue w').
Proof.
  unfold loop_body.
  destruct (readSerialBus _) as [sh1|] eqn:R1; [|discriminate].
  destruct (parseBuffer _ _ _ _) as [[pm2 sh2] ch2] eqn:P.
  destruct (checkCommand _ _ _ _) as [[pm3 sh3] ch3] eqn:K.
  destruct (sendModel _ _) as [pm4 n4] eqn:M.
  destruct (getCommand _ _ _ _) as [[[[pm5 sh5] ch5] q5]|] eqn:G; [|discriminate].
  intros [= <-]. cbn.
  exists sh1, pm2, sh2, ch2, pm3, sh3, ch3, pm4.
  repeat split; assumption.
Qed.

(** What every pass keeps, a run keeps. *)
Lemma run_keeps (P : World -> Prop) :
  (forall tk w w', P w -> loop_body tk w = Some w' -> P w') ->
  forall ticks w w', P w -> run ticks w = Some w' -> P w'.
Proof.
  intros Step. induction ticks as [|tk ticks IH]; intros w w' Pw R.
  - now injection R as <-.
  - cbn [run] in R. destruct (loop_body tk w) as [w1|] eqn:L; [|discriminate].
    exact (IH w1 w' (Step tk w w1 Pw L) R).
Qed.

(** X9.  With no command in flight and no text in the queue, nothing is
    ever written to the bus: whatever frames arrive, keep-alives included,
    a run of the loop leaves the bus untouched and the handler idle. *)
Theorem idle_stays_silent ticks w w' :
  CommandHandler.sending_message (commandHandler w) = false ->
  ready_to_send (serialHandler w) = false ->
  queue_empty (command_queue w) = true ->
  run ticks w = Some w' ->
  sent (serialHandler w') = sent (serialHandler w)
  /\ CommandHandler.sending_message (commandHandler w') = false
  /\ ready_to_send (serialHandler w') = false
  /\ command_queue w' = command_queue w.
Proof.
  intros S R Q RUN.
  assert (Inv : queue_empty (command_queue w') = true
                /\ sent (serialHandler w') = sent (serialHandler w)
                /\ CommandHandler.sending_message (commandHandler w') = false
                /\ ready_to_send (serialHandler w') = false
                /\ command_queue w' = command_queue w).
  2:{ apply Inv. }
  apply (@run_keeps
           (fun v => queue_empty (command_queue v) = true
                     /\ sent (serialHandler v) = sent (serialHandler w)
                     /\ CommandHandler.sending_message (commandHandler v) = false
                     /\ ready_to_send (serialHandler v) = false
                     /\ command_queue v = command_queue w)) with (3 := RUN); auto.
  clear. intros tk v v' (Pe & Ps & Pm & Pr & Pq) L.
  destruct (loop_body_steps _ _ L)
    as (sh1 & pm2 & sh2 & ch2 & pm3 & sh3 & ch3 & pm4 & R1 & P & K & _ & G).
  apply readSerialBus_keeps in R1 as [Rs Rr]. cbn in Rs, Rr.
  apply parseBuffer_cases in P as (_ & _ & _ & _ & _ & _ & [(Es & Er & Em)|(Er & _)]);
    [|congruence].
  rewrite checkCommand_idle in K by congruence. injection K as <- <- <-.
  rewrite (getCommand_no_text pm4 sh2 ch2 _ Pe) in G. injection G as _ <- <- <-.
  repeat split; congruence.
Qed.

(** X10.  A command that needs no confirmation goes out at most once: from
    the moment it is ready, a run of the loop either has not sent it yet
    and still holds it ready, or has written it to the bus exactly once
    and holds nothing in flight. *)
Theorem menu_command_sent_at_most_once ticks w w' :
  CommandHandler.sending_message (commandHandler w) = true ->
  CommandHandler.confirm (commandHandler w) = false ->
  ready_to_send (serialHandler w) = true ->
  queue_empty (command_queue w) = true ->
  run ticks w = Some w' ->
  (sent (serialHandler w') = sent (serialHandler w)
   /\ CommandHandler.sending_message (commandHandler w') = true
   /\ ready_to_send (serialHandler w') = true)
  \/ (sent (serialHandler w')
      = sent (serialHandler w) ++ [CommandHandler.full_command (commandHandler w)]
      /\ CommandHandler.sending_message (commandHandler w') = false
      /\ ready_to_send (serialHandler w') = false).
Proof.
  intros S C R Q RUN.
  assert (Inv :
    queue_empty (command_queue w') = true
    /\ CommandHandler.confirm (commandHandler w') = false
    /\ CommandHandler.full_command (commandHandler w')
       = CommandHandler.full_command (commandHandler w)
    /\ ((sent (serialHandler w') = sent (serialHandler w)
         /\ CommandHandler.sending_message (commandHandler w') = true
         /\ ready_to_send (serialHandler w') = true)
        \/ (sent (serialHandler w')
            = sent (serialHandler w) ++ [CommandHandler.full_command (commandHandler w)]
            /\ CommandHandler.sending_message (commandHandler w') = false
            /\ ready_to_send (serialHandler w') = false))).
  2:{ apply Inv. }
  apply (@run_keeps
           (fun v =>
              queue_empty (command_queue v) = true
              /\ CommandHandler.confirm (commandHandler v) = false
              /\ CommandHandler.full_command (commandHandler v)
                 = CommandHandler.full_command (commandHandler w)
              /\ ((sent (serialHandler v) = sent (serialHandler w)
                   /\ CommandHandler.sending_message (commandHandler v) = true
                   /\ ready_to_send (serialHandler v) = true)
                  \/ (sent (serialHandler v)
                      = sent (serialHandler w)
                        ++ [CommandHandler.full_command (commandHandler w)]
                      /\ CommandHandler.sending_message (commandHandler v) = false
                      /\ ready_to_send (serialHandler v) = false))))
    with (3 := RUN).
  2:{ repeat split; auto. }
  clear. intros tk v v' (Pq & Pc & Pf & Pcase) L.
  destruct (loop_body_steps _ _ L)
    as (sh1 & pm2 & sh2 & ch2 & pm3 & sh3 & ch3 & pm4 & R1 & P & K & _ & G).
  apply readSerialBus_keeps in R1 as [Rs Rr]. cbn in Rs, Rr.
  apply parseBuffer_cases in P as (_ & _ & Ec & Ef & _ & _ & Pb).
  rewrite (getCommand_no_text pm4 sh3 ch3 _ Pq) in G. injection G as _ <- <- <-.
  split; [exact Pq|].
  destruct Pcase as [(Ps & Pm & Pr)|(Ps & Pm & Pr)].
  - destruct Pb as [(Es & Er & Em)|(_ & _ & _ & _ & Es & Er & Em)].
    + rewrite checkCommand_ready in K by congruence. injection K as <- <- <-.
      split; [congruence|]. split; [congruence|]. left. repeat split; congruence.
    + rewrite Pc in Em. cbn in Em.
      rewrite checkCommand_idle in K by exact Em. injection K as <- <- <-.
      split; [congruence|]. split; [congruence|]. right. repeat split; congruence.
  - destruct Pb as [(Es & Er & Em)|(Er & _)]; [|congruence].
    rewrite checkCommand_idle in K by congruence. injection K as <- <- <-.
    split; [congruence|]. split; [congruence|]. right. repeat split; congruence.
Qed.

(** X11.  The ready flag is never up without a command in flight: if that
    holds before a run of the loop, it holds after it, whatever arrives on
    the bus or in the queue. *)
Theorem ready_implies_in_flight ticks w w' :
  (ready_to_send (serialHandler w) = true ->
   CommandHandler.sending_message (commandHandler w) = true) ->
  run ticks w = Some w' ->
  ready_to_send (serialHandler w') = true ->
  CommandHandler.sending_message (commandHandler w') = true.
Proof.
  intros I RUN.
  apply (@run_keeps
           (fun v => ready_to_send (serialHandler v) = true ->
                     CommandHandler.sending_message (commandHandler v) = true))
    with (3 := RUN); auto.
  clear. intros tk v v' Pv L.
  destruct (loop_body_steps _ _ L)
    as (sh1 & pm2 & sh2 & ch2 & pm3 & sh3 & ch3 & pm4 & R1 & P & K & _ & G).
  apply readSerialBus_keeps in R1 as [_ Rr]. cbn in Rr.
  assert (I2 : ready_to_send sh2 = true -> CommandHandler.sending_message ch2 = true).
  { apply parseBuffer_cases in P as (_ & _ & _ & _ & _ & _ & [(_ & Er & Em)|(_ & _ & _ & _ & _ & Er & _)]).
    - rewrite Er, Em, Rr. exact Pv.
    - congruence. }
  assert (I3 : ready_to_send sh3 = true -> CommandHandler.sending_message ch3 = true).
  { revert K. unfold checkCommand.
    destruct (CommandHandler.sending_message ch2) eqn:S2; cbn [negb].
    2:{ intros [= <- <- <-] r. specialize (I2 r). congruence. }
    destruct (ready_to_send sh2) eqn:R2.
    { intros [= <- <- <-]. congruence. }
    destruct (_ >=? _)%Z.
    2:{ intros [= <- <- <-]. congruence. }
    destruct (String.eqb _ _).
    { intros [= <- <- <-]. congruence. }
    unfold CommandHandler.sendAttemptsRemain.
    destruct (CommandHandler.attempts_remaining ch2).
    - intros [= <- <- <-]. congruence.
    - intros [= <- <- <-] _. destruct ch2; cbn in *. exact S2. }
  destruct (getCommand_cases _ _ _ _ G) as [(_ & -> & ->)|[(id & _ & _ & -> & ->)|(id & _ & -> & ->)]];
    auto.
Qed.

End LoopSafety.

(** Keep-alives and an update pass by while nothing is in flight. *)
Lemma idle_stays_silent_witness :
  exists w',
    run (H:=Sample.installation) Cases.bus_traffic Cases.idle_world = Some w'
    /\ sent (serialHandler w') = []
    /\ CommandHandler.sending_message (commandHandler w') = false
    /\ ready_to_send (serialHandler w') = false
    /\ command_queue w' = None.
Proof.
  destruct (run (H:=Sample.installation) Cases.bus_traffic Cases.idle_world)
    as [w'|] eqn:R.
  2:{ vm_compute in R. discriminate R. }
  exists w'. split; [reflexivity|].
  exact (@idle_stays_silent Sample.installation Cases.bus_traffic Cases.idle_world w'
           eq_refl eq_refl eq_refl R).
Defined.

(** Three keep-alives after a menu button was accepted: one transmission. *)
Lemma menu_command_sent_at_most_once_witness :
  exists w',
    run (H:=Sample.installation) Cases.bus_traffic Cases.menu_ready = Some w'
    /\ sent (serialHandler w') = [Sample.press_frame]
    /\ CommandHandler.sending_message (commandHandler w') = false.
Proof.
  destruct (run (H:=Sample.installation) Cases.bus_traffic Cases.menu_ready)
    as [w'|] eqn:R.
  2:{ vm_compute in R. discriminate R. }
  exists w'. split; [reflexivity|].
  destruct (@menu_command_sent_at_most_once Sample.installation Cases.bus_traffic
              Cases.menu_ready w' eq_refl eq_refl eq_refl eq_refl R)
    as [(_ & _ & Still)|(Sent & Idle & _)].
  - exfalso. vm_compute in R. injection R as <-. discriminate Still.
  - split; [exact Sent|exact Idle].
Defined.

(** The toggle of the sample, after its second keep-alive: armed again and
    in flight. *)
Lemma ready_implies_in_flight_witness :
  exists w',
    run (H:=Sample.installation) Sample.second_keepalive Sample.toggle_accepted = Some w'
    /\ ready_to_send (serialHandler w') = true
    /\ CommandHandler.sending_message (commandHandler w') = true.
Proof.
  destruct (run (H:=Sample.installation) Sample.second_keepalive Sample.toggle_accepted)
    as [w'|] eqn:R.
  2:{ vm_compute in R. discriminate R. }
  assert (Rdy : ready_to_send (serialHandler w') = true).
  { assert (R' := R). vm_compute in R'. injection R' as <-. reflexivity. }
  exists w'. split; [reflexivity|]. split; [exact Rdy|].
  exact (@ready_implies_in_flight Sample.installation Sample.second_keepalive
           Sample.toggle_accepted w' (fun _ => eq_refl) R Rdy).
Defined.

(** ** Confirmation and notification *)

Section Notification.

(** X12.  A confirmation is notified once: when [checkCommand] finds the
    target state in a model stamped at or after the mark, the command and
    the model's sending flag are cleared and the change flag is raised, so
    that the next [sendModel] emits the model once and lowers the flag, and
    the [sendModel] after that emits nothing.  The port is not touched and
    the states the model holds are not changed. *)
Theorem confirmation_notifies_once now pm sh ch n :
  CommandHandler.sending_message ch = true ->
  ready_to_send sh = false ->
  (PoolModel.timestamp pm >= CommandHandler.last_model_timestamp_seen ch)%Z ->
  target_reached pm ch = true ->
  exists pm1 pm2,
    checkCommand now pm sh ch = (pm1, sh, CommandHandler.set_sending_message false ch)
    /\ PoolModel.sending_message pm1 = false
    /\ sendModel pm1 n = (pm2, S n)
    /\ sendModel pm2 (S n) = (pm2, S n)
    /\ PoolModel.getParameterState pm2 = PoolModel.getParameterState pm
    /\ PoolModel.timestamp pm2 = PoolModel.timestamp pm.
Proof.
  intros S R G T.
  rewrite (checkCommand_at_or_after_mark now pm sh ch S R G), T.
  do 2 eexists. split; [reflexivity|]. split; [reflexivity|].
  unfold sendModel. cbn. repeat split; reflexivity.
Qed.

(** X13.  [checkCommand] clears the model's sending flag when it confirms
    the command and in no other case: a command that is given up, or armed
    for another attempt, leaves the flag of the model as it was. *)
Theorem model_flag_cleared_by_confirmation_only now pm sh ch pm' sh' ch' :
  checkCommand now pm sh ch = (pm', sh', ch') ->
  PoolModel.sending_message pm = true ->
  (PoolModel.sending_message pm' = false
   <-> (CommandHandler.sending_message ch = true
        /\ ready_to_send sh = false
        /\ (PoolModel.timestamp pm >= CommandHandler.last_model_timestamp_seen ch)%Z
        /\ target_reached pm ch = true)).
Proof.
  intros K F. split.
  - intros F'. revert K. unfold checkCommand, target_reached.
    destruct (CommandHandler.sending_message ch); cbn [negb].
    2:{ intros [= <- <- <-]. congruence. }
    destruct (ready_to_send sh).
    { intros [= <- <- <-]. congruence. }
    destruct (Z.geb_spec (PoolModel.timestamp pm)
                         (CommandHandler.last_model_timestamp_seen ch)) as [G|G].
    2:{ intros [= <- <- <-]. congruence. }
    destruct (String.eqb _ _).
    { intros _. repeat split. lia. }
    unfold CommandHandler.sendAttemptsRemain.
    destruct (CommandHandler.attempts_remaining ch); intros [= <- <- <-]; congruence.
  - intros (S & R & G & T).
    rewrite (checkCommand_at_or_after_mark now pm sh ch S R G), T in K.
    now injection K as <- _ _.
Qed.

End Notification.

(** The toggle of [pool] finds the pool on. *)
Lemma confirmation_notifies_once_witness :
  exists pm1 pm2,
    checkCommand 9 (Sample.model "ON" 8 1) Sample.idle_port (Sample.toggle_in_flight 0 7 1)
    = (pm1, Sample.idle_port,
       CommandHandler.set_sending_message false (Sample.toggle_in_flight 0 7 1))
    /\ PoolModel.sending_message pm1 = false
    /\ sendModel pm1 0 = (pm2, 1%nat)
    /\ sendModel pm2 1 = (pm2, 1%nat)
    /\ PoolModel.getParameterState pm2 = PoolModel.getParameterState (Sample.model "ON" 8 1)
    /\ PoolModel.timestamp pm2 = 8%Z.
Proof.
  exact (@confirmation_notifies_once 9 (Sample.model "ON" 8 1) Sample.idle_port
           (Sample.toggle_in_flight 0 7 1) 0
           eq_refl eq_refl ltac:(cbn; lia) eq_refl).
Defined.

(** The toggle of [pool] is given up: the model still says sending. *)
Lemma model_flag_cleared_by_confirmation_only_witness :
  PoolModel.sending_message (PoolModel.set_sending_message true (Sample.model "OFF" 8 1))
  = false
  <-> (true = true /\ false = false /\ (8 >= 7)%Z /\ false = true).
Proof.
  exact (@model_flag_cleared_by_confirmation_only 9
           (PoolModel.set_sending_message true (Sample.model "OFF" 8 1))
           Sample.idle_port (Sample.toggle_in_flight 0 7 0)
           (PoolModel.set_sending_message true (Sample.model "OFF" 8 1))
           Sample.idle_port
           (CommandHandler.set_sending_message false (Sample.toggle_in_flight 0 7 0))
           eq_refl eq_refl).
Defined.

(** ** Taking a command from the queue *)

Section Intake.

Context `{Collaborators}.

Lemma two_fields (fields : list string) :
  (List.length fields =? 2)%nat = true ->
  fields = [nth 0 fields EmptyString; nth 1 fields EmptyString].
Proof.
  destruct fields as [|a [|b [|c rest]]]; cbn; try discriminate. reflexivity.
Qed.

(** X14.  [getCommand] takes a command up only when the queue file
    decodes, its first line has exactly two comma-separated fields, the
    second is an integer equal to the version of the model, and the first
    is a key of one of the two command tables or the name of the
    pool-spa-spillover button; the queue is then emptied.  It never accepts
    a command with another version or an unknown identifier. *)
Theorem getCommand_accepts_only_valid pm sh ch q pm' sh' ch' q' :
  getCommand pm sh ch q = Some (pm', sh', ch', q') ->
  CommandHandler.sending_message ch = false ->
  CommandHandler.sending_message ch' = true ->
  exists content text commandID versionText,
    q = Some content
    /\ decode content = Some text
    /\ split_comma (readline text) = [commandID; versionText]
    /\ py_int versionText = Some (PoolModel.version pm)
    /\ (key_in commandID button_toggle = true
        \/ commandID = "pool-spa-spillover"%string
        \/ key_in commandID buttons_menu = true)
    /\ q' = Some EmptyString.
Proof.
  unfold getCommand. intros G S S'. rewrite S in G.
  destruct q as [content|].
  2:{ injection G as <- <- <- <-. congruence. }
  destruct (String.length content =? 0)%nat.
  { injection G as <- <- <- <-. congruence. }
  destruct (decode content) as [text|] eqn:D; [|discriminate].
  destruct (List.length (split_comma (readline text)) =? 2)%nat eqn:L.
  2:{ injection G as <- <- <- <-. congruence. }
  apply two_fields in L.
  set (commandID := nth 0 (split_comma (readline text)) EmptyString) in *.
  set (versionText := nth 1 (split_comma (readline text)) EmptyString) in *.
  destruct (py_int versionText) as [v|] eqn:V.
  2:{ injection G as <- <- <- <-. congruence. }
  destruct (Z.eqb_spec v (PoolModel.version pm)) as [E|E]; cbn [negb] in G.
  2:{ injection G as <- <- <- <-. congruence. }
  subst v. exists content, text, commandID, versionText.
  split; [reflexivity|]. split; [exact D|]. split; [exact L|]. split; [exact V|].
  destruct (key_in commandID button_toggle) eqn:T; cbn [orb] in G.
  - destruct (String.eqb _ "INIT").
    + injection G as <- <- <- <-. congruence.
    + injection G as <- <- <- <-. split; [now left|reflexivity].
  - destruct (String.eqb_spec commandID "pool-spa-spillover") as [P|P].
    + destruct (String.eqb _ "INIT").
      * injection G as <- <- <- <-. congruence.
      * injection G as <- <- <- <-. split; [now right; left|reflexivity].
    + destruct (key_in commandID buttons_menu) eqn:M.
      * injection G as <- <- <- <-. split; [now right; right|reflexivity].
      * injection G as <- <- <- <-. congruence.
Qed.

(** X15.  What becomes of the queue when [getCommand] reads it.  The text
    is held back in one case exactly: the first line is a well-formed
    toggle (two fields, the version of the model, a key of the toggle table
    or the pool-spa-spillover button) and the parameter it resolves to is
    in the INIT state.  Then the call changes nothing and leaves the file
    as it is, so the same command is read again on the next pass.  In
    every other case the file is emptied. *)
Theorem getCommand_queue_after pm sh ch content text :
  CommandHandler.sending_message ch = false ->
  content <> EmptyString ->
  decode content = Some text ->
  let held :=
    exists commandID versionText,
      split_comma (readline text) = [commandID; versionText]
      /\ py_int versionText = Some (PoolModel.version pm)
      /\ (key_in commandID button_toggle = true
          \/ commandID = "pool-spa-spillover"%string)
      /\ PoolModel.getParameterState pm (resolveCommandID pm commandID)
         = "INIT"%string in
  (held -> getCommand pm sh ch (Some content) = Some (pm, sh, ch, Some content))
  /\ (~ held ->
      exists pm' sh' ch',
        getCommand pm sh ch (Some content) = Some (pm', sh', ch', Some EmptyString)).
Proof.
  intros S N D held. unfold getCommand. rewrite S.
  destruct content as [|c content]; [contradiction|]. cbn [String.length Nat.eqb].
  rewrite D. split.
  - intros (commandID & versionText & F & V & T & I).
    rewrite F. cbn [List.length Nat.eqb nth]. rewrite V, Z.eqb_refl. cbn [negb].
    assert (T' : (key_in commandID button_toggle
                  || String.eqb commandID "pool-spa-spillover")%bool = true).
    { apply orb_true_iff. destruct T as [T|T]; [now left|right].
      subst. apply String.eqb_refl. }
    rewrite T'. rewrite I. reflexivity.
  - intros NH.
    destruct (List.length (split_comma (readline text)) =? 2)%nat eqn:L.
    2:{ now exists pm, sh, ch. }
    apply two_fields in L.
    set (commandID := nth 0 (split_comma (readline text)) EmptyString) in *.
    set (versionText := nth 1 (split_comma (readline text)) EmptyString) in *.
    destruct (py_int versionText) as [v|] eqn:V.
    2:{ now exists pm, sh, ch. }
    destruct (Z.eqb_spec v (PoolModel.version pm)) as [E|E]; cbn [negb].
    2:{ now exists pm, sh, ch. }
    subst v.
    destruct (key_in commandID button_toggle
              || String.eqb commandID "pool-spa-spillover")%bool eqn:T.
    + destruct (String.eqb_spec
                  (PoolModel.getParameterState pm (resolveCommandID pm commandID))
                  "INIT") as [I|I].
      * exfalso. apply NH. exists commandID, versionText.
        split; [exact L|]. split; [exact V|]. split; [|exact I].
        apply orb_true_iff in T as [T|T]; [now left|right].
        now apply String.eqb_eq.
      * do 3 eexists. reflexivity.
    + destruct (key_in commandID buttons_menu); do 3 eexists; reflexivity.
Qed.

(** X16.  Commands that are thrown away: a first line that does not have
    exactly two fields, a version that is not an integer or differs from
    the version of the model, or an identifier found in neither table (and
    not the pool-spa-spillover button) changes nothing but the queue, which
    is emptied. *)
Theorem getCommand_discards pm sh ch content text :
  CommandHandler.sending_message ch = false ->
  content <> EmptyString ->
  decode content = Some text ->
  (List.length (split_comma (readline text)) <> 2%nat
   \/ (exists commandID versionText,
         split_comma (readline text) = [commandID; versionText]
         /\ (py_int versionText = None
             \/ (exists v, py_int versionText = Some v /\ v <> PoolModel.version pm)
             \/ (key_in commandID button_toggle = false
                 /\ commandID <> "pool-spa-spillover"%string
                 /\ key_in commandID buttons_menu = false)))) ->
  getCommand pm sh ch (Some content) = Some (pm, sh, ch, Some EmptyString).
Proof.
  unfold getCommand. intros S N D Why. rewrite S.
  destruct content as [|c content]; [contradiction|]. cbn [String.length Nat.eqb].
  rewrite D.
  destruct Why as [L|(commandID & versionText & F & Why)].
  - apply Nat.eqb_neq in L. now rewrite L.
  - rewrite F. cbn [List.length Nat.eqb nth].
    destruct Why as [V|[(v & V & E)|(T & P & M)]].
    + now rewrite V.
    + rewrite V. apply Z.eqb_neq in E. now rewrite E.
    + destruct (py_int versionText) as [v|]; [|reflexivity].
      destruct (negb _); [reflexivity|].
      apply String.eqb_neq in P. now rewrite T, P, M.
Qed.

(** X17.  The pool-spa-spillover button stands for the one of the three
    that is on: it is taken as a toggle of [pool] when the pool is ON,
    else of [spa] when the spa is ON, and the target is then OFF; when
    neither is ON it is a toggle of [spillover], whose target is OFF if
    the spillover is ON and ON otherwise.  The command needs confirmation
    in every case. *)
Theorem spillover_button pm sh ch content text versionText pm' sh' ch' q' :
  decode content = Some text ->
  split_comma (readline text) = ["pool-spa-spillover"%string; versionText] ->
  getCommand pm sh ch (Some content) = Some (pm', sh', ch', q') ->
  CommandHandler.sending_message ch = false ->
  CommandHandler.sending_message ch' = true ->
  let state := PoolModel.getParameterState pm in
  CommandHandler.confirm ch' = true
  /\ (state "pool"%string = "ON"%string ->
      CommandHandler.parameter ch' = "pool"%string
      /\ CommandHandler.target_state ch' = "OFF"%string)
  /\ (state "pool"%string <> "ON"%string -> state "spa"%string = "ON"%string ->
      CommandHandler.parameter ch' = "spa"%string
      /\ CommandHandler.target_state ch' = "OFF"%string)
  /\ (state "pool"%string <> "ON"%string -> state "spa"%string <> "ON"%string ->
      CommandHandler.parameter ch' = "spillover"%string
      /\ (state "spillover"%string = "ON"%string ->
          CommandHandler.target_state ch' = "OFF"%string)
      /\ (state "spillover"%string <> "ON"%string ->
          CommandHandler.target_state ch' = "ON"%string)).
Proof.
  intros D F G S S' state. subst state. unfold getCommand in G. rewrite S in G.
  destruct (String.length content =? 0)%nat.
  { injection G as <- <- <- <-. congruence. }
  rewrite D, F in G.
  cbn [List.length Nat.eqb nth] in G.
  destruct (py_int versionText) as [v|].
  2:{ injection G as <- <- <- <-. congruence. }
  destruct (negb _).
  { injection G as <- <- <- <-. congruence. }
  rewrite String.eqb_refl, orb_true_r in G.
  unfold resolveCommandID in G. rewrite String.eqb_refl in G.
  destruct (String.eqb_spec (PoolModel.getParameterState pm "pool") "ON") as [Pl|Pl].
  - destruct (String.eqb (PoolModel.getParameterState pm "pool") "INIT").
    { injection G as <- <- <- <-. congruence. }
    injection G as <- <- <- <-. cbn.
    unfold desiredState. cbn [String.eqb Ascii.eqb Bool.eqb andb].
    rewrite Pl. cbn.
    repeat split; intros; try congruence.
  - destruct (String.eqb_spec (PoolModel.getParameterState pm "spa") "ON") as [Sp|Sp].
    + destruct (String.eqb (PoolModel.getParameterState pm "spa") "INIT").
      { injection G as <- <- <- <-. congruence. }
      injection G as <- <- <- <-. cbn.
      unfold desiredState. cbn [String.eqb Ascii.eqb Bool.eqb andb].
      rewrite Sp. cbn.
      repeat split; intros; try congruence.
    + destruct (String.eqb (PoolModel.getParameterState pm "spillover") "INIT").
      { injection G as <- <- <- <-. congruence. }
      injection G as <- <- <- <-. cbn.
      unfold desiredState. cbn [String.eqb Ascii.eqb Bool.eqb andb].
      destruct (String.eqb_spec (PoolModel.getParameterState pm "spillover") "ON");
        repeat split; intros; try congruence.
Qed.

(** X20.  A queue file whose bytes do not decode: read while no command is
    in flight, it makes [getCommand] raise before anything is parsed or
    truncated, and the exception leaves the loop in the first pass that
    reaches it. *)
Theorem undecodable_queue_raises pm sh ch content :
  CommandHandler.sending_message ch = false ->
  content <> EmptyString ->
  decode content = None ->
  getCommand pm sh ch (Some content) = None
  /\ (forall tk w,
        CommandHandler.sending_message (commandHandler w) = false ->
        command_queue w = Some content ->
        loop_body tk w = None).
Proof.
  intros S N D.
  assert (G : forall pm0 sh0 ch0,
             CommandHandler.sending_message ch0 = false ->
             getCommand pm0 sh0 ch0 (Some content) = None).
  { intros pm0 sh0 ch0 S0. unfold getCommand. rewrite S0.
    destruct content as [|c content]; [contradiction|]. cbn [String.length Nat.eqb].
    now rewrite D. }
  split; [now apply G|].
  intros tk w Sw Qw. unfold loop_body.
  destruct (readSerialBus _) as [sh1|]; [|reflexivity].
  destruct (parseBuffer _ _ _ _) as [[pm2 sh2] ch2] eqn:P.
  apply parseBuffer_cases in P as (_ & _ & _ & _ & _ & _ & Pb).
  assert (S2 : CommandHandler.sending_message ch2 = false).
  { destruct Pb as [(_ & _ & Em)|(_ & _ & _ & _ & _ & _ & Em)]; rewrite Em, Sw;
      [reflexivity|apply andb_false_r]. }
  rewrite (checkCommand_idle _ pm2 sh2 ch2 S2).
  destruct (sendModel _ _) as [pm4 n4].
  now rewrite Qw, (G pm4 sh2 ch2 S2).
Qed.

End Intake.

(** A toggle of [spa] with the right version, the line ended by a lone
    carriage return and followed by another line, is taken up. *)
Lemma getCommand_accepts_only_valid_witness :
  exists content text commandID versionText,
    Some Cases.two_lines = Some content
    /\ @decode Sample.installation content = Some text
    /\ split_comma (readline text) = [commandID; versionText]
    /\ @py_int Sample.installation versionText = Some 1%Z
    /\ (key_in commandID (@button_toggle Sample.installation) = true
        \/ commandID = "pool-spa-spillover"%string
        \/ key_in commandID (@buttons_menu Sample.installation) = true)
    /\ Some EmptyString = Some EmptyString.
Proof.
  exact (@getCommand_accepts_only_valid Sample.installation
           (Sample.model "OFF" 0 1) Sample.idle_port Sample.idle_handler
           (Some Cases.two_lines)
           (PoolModel.set_sending_message true (Sample.model "OFF" 0 1))
           Sample.idle_port
           (initiateSend (H:=Sample.installation) "spa" "ON" true Sample.idle_handler)
           (Some EmptyString)
           eq_refl eq_refl eq_refl).
Defined.

(** A toggle of the filter stays queued while the filter is in INIT, and
    is taken up and removed once the filter reads OFF. *)
Lemma getCommand_queue_after_witness :
  getCommand (H:=Sample.installation) Cases.filter_unknown Sample.idle_port
    Sample.idle_handler (Some "filter,1"%string)
  = Some (Cases.filter_unknown, Sample.idle_port, Sample.idle_handler,
          Some "filter,1"%string)
  /\ exists pm' sh' ch',
       getCommand (H:=Sample.installation) (Sample.model "OFF" 0 1) Sample.idle_port
         Sample.idle_handler (Some "filter,1"%string)
       = Some (pm', sh', ch', Some EmptyString).
Proof.
  split.
  - apply (proj1 (@getCommand_queue_after Sample.installation
                    Cases.filter_unknown Sample.idle_port Sample.idle_handler
                    "filter,1" "filter,1" eq_refl ltac:(discriminate) eq_refl)).
    exists "filter"%string, "1"%string. repeat split. now left.
  - apply (proj2 (@getCommand_queue_after Sample.installation
                    (Sample.model "OFF" 0 1) Sample.idle_port Sample.idle_handler
                    "filter,1" "filter,1" eq_refl ltac:(discriminate) eq_refl)).
    intros (commandID & versionText & F & _ & _ & I).
    injection F as <- _. discriminate I.
Defined.

(** A toggle sent by a front end of another version. *)
Lemma getCommand_discards_witness :
  getCommand (H:=Sample.installation) (Sample.model "OFF" 0 1) Sample.idle_port
    Sample.idle_handler (Some "pool,2"%string)
  = Some (Sample.model "OFF" 0 1, Sample.idle_port, Sample.idle_handler,
          Some EmptyString).
Proof.
  apply (@getCommand_discards Sample.installation _ _ _ "pool,2" "pool,2").
  - reflexivity.
  - discriminate.
  - reflexivity.
  - right. exists "pool"%string, "2"%string. split; [reflexivity|].
    right. left. exists 2%Z. split; [reflexivity|discriminate].
Defined.

(** The button is pressed while the pool is on. *)
Lemma spillover_button_witness :
  CommandHandler.parameter
    (initiateSend (H:=Sample.installation) "pool" "OFF" true Sample.idle_handler)
  = "pool"%string
  /\ CommandHandler.target_state
       (initiateSend (H:=Sample.installation) "pool" "OFF" true Sample.idle_handler)
     = "OFF"%string.
Proof.
  destruct (@spillover_button Sample.installation
              Cases.pool_on Sample.idle_port Sample.idle_handler
              "pool-spa-spillover,1" "pool-spa-spillover,1" "1"
              (PoolModel.set_sending_message true Cases.pool_on)
              Sample.idle_port
              (initiateSend (H:=Sample.installation) "pool" "OFF" true Sample.idle_handler)
              (Some EmptyString)
              eq_refl eq_refl eq_refl eq_refl eq_refl)
    as (_ & pool & _).
  exact (pool eq_refl).
Defined.

(** A queue file that holds a byte outside ASCII ends the loop. *)
Lemma undecodable_queue_raises_witness :
  getCommand (H:=Sample.installation) (Sample.model "OFF" 0 1) Sample.idle_port
    Sample.idle_handler (Some Cases.undecodable)
  = None
  /\ loop_body (H:=Sample.installation) (mkTick [x41] 5 6)
       (mkWorld (Sample.model "OFF" 0 1) Sample.idle_port Sample.idle_handler
          (Some Cases.undecodable) 0)
     = None.
Proof.
  destruct (@undecodable_queue_raises Sample.installation
              (Sample.model "OFF" 0 1) Sample.idle_port Sample.idle_handler
              Cases.undecodable eq_refl ltac:(discriminate) eq_refl) as [G L].
  split; [exact G|]. apply L; reflexivity.
Defined.

(** ** The keep-alive rule from a count of zero *)

Section HeartbeatRule.

Context `{Collaborators}.

Lemma with_frame_keepalive now pm sh ch frame data :
  validate frame = ValidFrame FRAME_TYPE_KEEPALIVE data ->
  ready_to_send sh = true ->
  parseBuffer now pm (with_frame frame sh) ch =
    if (CommandHandler.keep_alive_count ch =? 1)%Z then
      (pm,
       reset (set_ready_to_send false
                (send (CommandHandler.full_command ch) (with_frame frame sh))),
       if negb (CommandHandler.confirm ch)
       then CommandHandler.set_sending_message false ch else ch)
    else (pm, reset (with_frame frame sh), CommandHandler.set_keep_alive_count 1 ch).
Proof.
  intros V R.
  rewrite (@parseBuffer_keepalive _ now pm (with_frame frame sh) ch
             FRAME_TYPE_KEEPALIVE data eq_refl V (bytes_eqb_refl _)).
  destruct sh; cbn in *. now rewrite R.
Qed.

(** X18.  The keep-alive rule when the count is zero as the command
    becomes ready.  The first keep-alive sends nothing and puts the count
    to one.  A keep-alive that follows directly sends the command, once,
    and lowers the ready flag.  A valid frame of another type in between
    puts the count back to zero, so that the keep-alive after it sends
    nothing either, and only the keep-alive after that one sends. *)
Theorem heartbeat_rule_from_zero n1 n2 n3 n4 pm sh ch ka1 ka2 ka3 other ty d1 d2 d3 d :
  validate ka1 = ValidFrame FRAME_TYPE_KEEPALIVE d1 ->
  validate ka2 = ValidFrame FRAME_TYPE_KEEPALIVE d2 ->
  validate ka3 = ValidFrame FRAME_TYPE_KEEPALIVE d3 ->
  validate other = ValidFrame ty d ->
  bytes_eqb ty FRAME_TYPE_KEEPALIVE = false ->
  ready_to_send sh = true ->
  CommandHandler.keep_alive_count ch = 0%Z ->
  let '(pm1, sh1, ch1) := parseBuffer n1 pm (with_frame ka1 sh) ch in
  (sent sh1 = sent sh /\ ready_to_send sh1 = true
   /\ CommandHandler.keep_alive_count ch1 = 1%Z /\ pm1 = pm)
  /\ (let '(_, sh2, _) := parseBuffer n2 pm1 (with_frame ka2 sh1) ch1 in
      sent sh2 = sent sh ++ [CommandHandler.full_command ch]
      /\ ready_to_send sh2 = false)
  /\ (let '(pm2, sh2, ch2) := parseBuffer n2 pm1 (with_frame other sh1) ch1 in
      (sent sh2 = sent sh /\ ready_to_send sh2 = true
       /\ CommandHandler.keep_alive_count ch2 = 0%Z)
      /\ let '(pm3, sh3, ch3) := parseBuffer n3 pm2 (with_frame ka2 sh2) ch2 in
         (sent sh3 = sent sh /\ ready_to_send sh3 = true
          /\ CommandHandler.keep_alive_count ch3 = 1%Z)
         /\ let '(_, sh4, _) := parseBuffer n4 pm3 (with_frame ka3 sh3) ch3 in
            sent sh4 = sent sh ++ [CommandHandler.full_command ch]
            /\ ready_to_send sh4 = false).
Proof.
  intros V1 V2 V3 Vo K R C.
  assert (Reset : forall frame p, ready_to_send (reset (with_frame frame p)) = ready_to_send p
                                  /\ sent (reset (with_frame frame p)) = sent p).
  { intros frame p. now destruct p. }
  assert (Zero : forall now m frame dd p c,
             validate frame = ValidFrame FRAME_TYPE_KEEPALIVE dd ->
             ready_to_send p = true ->
             CommandHandler.keep_alive_count c = 0%Z ->
             parseBuffer now m (with_frame frame p) c
             = (m, reset (with_frame frame p), CommandHandler.set_keep_alive_count 1 c)).
  { intros now m frame dd p c V Rp Cc.
    now rewrite (@with_frame_keepalive now m p c frame dd V Rp), Cc. }
  assert (One : forall now m frame dd p c,
             validate frame = ValidFrame FRAME_TYPE_KEEPALIVE dd ->
             ready_to_send p = true ->
             CommandHandler.keep_alive_count c = 1%Z ->
             exists p' c',
               parseBuffer now m (with_frame frame p) c = (m, p', c')
               /\ sent p' = sent p ++ [CommandHandler.full_command c]
               /\ ready_to_send p' = false).
  { intros now m frame dd p c V Rp Cc.
    rewrite (@with_frame_keepalive now m p c frame dd V Rp), Cc. cbn [Z.eqb Pos.eqb].
    do 2 eexists. split; [reflexivity|]. now destruct p. }
  rewrite (Zero n1 pm ka1 d1 sh ch V1 R C). cbv beta iota zeta.
  destruct (Reset ka1 sh) as [R1 S1]. rewrite R in R1.
  split; [now rewrite S1, R1|]. split.
  - destruct (One n2 pm ka2 d2 (reset (with_frame ka1 sh))
                (CommandHandler.set_keep_alive_count 1 ch) V2 R1 eq_refl)
      as (p' & c' & -> & Sp & Rp).
    cbv beta iota zeta. rewrite Sp, S1. now destruct ch.
  - destruct (@parseBuffer_other _ n2 pm (with_frame other (reset (with_frame ka1 sh)))
                (CommandHandler.set_keep_alive_count 1 ch) ty d eq_refl Vo K)
      as [pm2 ->].
    cbv beta iota zeta.
    destruct (Reset other (reset (with_frame ka1 sh))) as [R2 S2].
    rewrite R1 in R2. rewrite S1 in S2.
    split; [now rewrite S2, R2|].
    rewrite (Zero n3 pm2 ka2 d2 _
               (CommandHandler.set_keep_alive_count 0
                  (CommandHandler.set_keep_alive_count 1 ch)) V2 R2 eq_refl).
    cbv beta iota zeta.
    destruct (Reset ka2 (reset (with_frame other (reset (with_frame ka1 sh)))))
      as [R3 S3].
    rewrite R2 in R3. rewrite S2 in S3.
    split; [now rewrite S3, R3|].
    destruct (One n4 pm2 ka3 d3 _
                (CommandHandler.set_keep_alive_count 1
                   (CommandHandler.set_keep_alive_count 0
                      (CommandHandler.set_keep_alive_count 1 ch))) V3 R3 eq_refl)
      as (p' & c' & -> & Sp & Rp).
    cbv beta iota zeta. rewrite Sp, S3. now destruct ch.
Qed.

(** X19.  One update, one attempt.  When [checkCommand] arms an attempt it
    moves the mark to the clock; if the model was stamped before that
    clock reading, [checkCommand] does not compare this same model again
    once the attempt has been sent: without a newer update there is no
    second attempt and no change of any kind. *)
Theorem one_update_one_attempt now now' pm sh ch n :
  CommandHandler.sending_message ch = true ->
  ready_to_send sh = false ->
  (PoolModel.timestamp pm >= CommandHandler.last_model_timestamp_seen ch)%Z ->
  target_reached pm ch = false ->
  CommandHandler.attempts_remaining ch = S n ->
  (PoolModel.timestamp pm < now)%Z ->
  exists sh1 ch1,
    checkCommand now pm sh ch = (pm, sh1, ch1)
    /\ ready_to_send sh1 = true
    /\ CommandHandler.attempts_remaining ch1 = n
    /\ CommandHandler.last_model_timestamp_seen ch1 = now
    /\ (forall sh2,
          checkCommand now' pm sh2 ch1 = (pm, sh2, ch1)).
Proof.
  intros S R G T A L.
  rewrite (checkCommand_at_or_after_mark now pm sh ch S R G), T, A.
  do 2 eexists. split; [reflexivity|].
  split; [now destruct sh|]. split; [now destruct ch|]. split; [now destruct ch|].
  intros sh2. unfold checkCommand.
  destruct (CommandHandler.sending_message _); [|reflexivity]. cbn [negb].
  destruct (ready_to_send sh2); [reflexivity|].
  destruct (Z.geb_spec (PoolModel.timestamp pm)
              (CommandHandler.last_model_timestamp_seen
                 (CommandHandler.set_last_model_timestamp_seen now
                    (CommandHandler.set_attempts_remaining n ch)))) as [G'|G'];
    [|reflexivity].
  destruct ch; cbn in G'. lia.
Qed.

End HeartbeatRule.

(** The three keep-alives and the update of the sample, the toggle ready. *)
Lemma heartbeat_rule_from_zero_witness :
  sent (snd (fst (parseBuffer (H:=Sample.installation) 1 (Sample.model "OFF" 0 1)
                    (with_frame Sample.keepalive_frame
                       (set_ready_to_send true Sample.idle_port))
                    (Sample.toggle_in_flight 0 0 1))))
  = [].
Proof.
  pose proof (@heartbeat_rule_from_zero Sample.installation 1 2 3 4
                (Sample.model "OFF" 0 1) (set_ready_to_send true Sample.idle_port)
                (Sample.toggle_in_flight 0 0 1)
                Sample.keepalive_frame Sample.keepalive_frame Sample.keepalive_frame
                Sample.leds_frame [x01; x02] [] [] [] [x04; x00; x00; x00]
                eq_refl eq_refl eq_refl eq_refl eq_refl eq_refl eq_refl) as Rule.
  destruct (parseBuffer (H:=Sample.installation) 1 (Sample.model "OFF" 0 1)
              (with_frame Sample.keepalive_frame (set_ready_to_send true Sample.idle_port))
              (Sample.toggle_in_flight 0 0 1)) as [[pm1 sh1] ch1].
  exact (proj1 (proj1 Rule)).
Defined.

(** The update stamped 8 arms the toggle at clock 9 and is then ignored. *)
Lemma one_update_one_attempt_witness :
  exists sh1 ch1,
    checkCommand 9 (Sample.model "OFF" 8 1) Sample.idle_port (Sample.toggle_in_flight 0 7 2)
    = (Sample.model "OFF" 8 1, sh1, ch1)
    /\ ready_to_send sh1 = true
    /\ CommandHandler.attempts_remaining ch1 = 1%nat
    /\ CommandHandler.last_model_timestamp_seen ch1 = 9%Z
    /\ (forall sh2, checkCommand 12 (Sample.model "OFF" 8 1) sh2 ch1
                    = (Sample.model "OFF" 8 1, sh2, ch1)).
Proof.
  exact (@one_update_one_attempt 9 12 (Sample.model "OFF" 8 1) Sample.idle_port
           (Sample.toggle_in_flight 0 7 2) 1
           eq_refl eq_refl ltac:(cbn; lia) eq_refl eq_refl ltac:(cbn; lia)).
Defined.
